(** * A shallow embedding of [mcp_openrouter.client.OpenRouterClient]

    The HTTP transport [_request] with its retry loop, and the operations
    [chat], [chat_simple], [generate_image], [list_models] and [find_model]
    built on it (src/mcp_openrouter/client.py), and the [find_models]
    tool of server.py.

    Modelling choices: the network is a function from the attempt number
    to its outcome; an error response with a JSON body carries an optional
    JSON error object whose [code] is an integer, and a response whose body
    is not JSON carries the message of the decoding error; [str.lower]
    (Unicode case mapping), [Path.resolve] and [base64.b64decode] (with the
    message of the [binascii.Error] it raises) are parameters. *)

From Stdlib Require Import ZArith Lia Ascii String.
From stdpp Require Import base list sets strings pretty.
Import ListNotations.

Open Scope Z_scope.
#[local] Set Warnings "-register-all".

(** ** JSON values and Python exceptions *)

(** A decoded JSON document as [response.json()] returns it (numbers are
    the integers the client compares against). *)
Inductive json :=
  | JNull
  | JBool (b : bool)
  | JNum (z : Z)
  | JStr (s : string)
  | JList (l : list json)
  | JObj (kvs : list (string * json)).

(** The exceptions that can escape the client. [Exception msg] is the
    bare [raise Exception(msg)] of the client; [BinasciiError msg] is the
    [binascii.Error] that [base64.b64decode] raises on a malformed payload;
    the others are the errors Python raises when a subscript or attribute
    access fails. *)
Inductive exn :=
  | Exception (msg : string)
  | BinasciiError (msg : string)
  | KeyError
  | IndexError
  | TypeError
  | AttributeError.

Inductive result (A : Type) :=
  | Ok (a : A)
  | Raise (e : exn).
Arguments Ok {A} a.
Arguments Raise {A} e.

(** Observable effects of a call, in order. *)
Inductive event :=
  | Send (meth url : string) (payload : option json)  (* one HTTP request *)
  | Print (line : string)                             (* print(..., file=sys.stderr) *)
  | Sleep (secs : Z)                                  (* time.sleep *)
  | Mkdir (dir : list string)                         (* mkdir(parents=True, exist_ok=True) *)
  | Create (path : list string)                       (* open(path, "wb") *)
  | WriteBytes (path : list string) (data : list Byte.byte). (* f.write *)

(** A computation: the effects it performed and how it ended. *)
Definition M (A : Type) : Type := (list event * result A)%type.

Definition ret {A} (a : A) : M A := ([], Ok a).
Definition throw {A} (e : exn) : M A := ([], Raise e).
Definition emit (ev : event) : M unit := ([ev], Ok tt).
Definition bind {A B} (m : M A) (k : A -> M B) : M B :=
  match m with
  | (tr, Ok a) => let '(tr', r) := k a in (tr ++ tr', r)
  | (tr, Raise e) => (tr, Raise e)
  end.
Definition lift {A} (r : result A) : M A := ([], r).

Notation "x <- m ;; k" := (bind m (fun x => k))
  (at level 100, m at next level, right associativity).
Notation "m ;;; k" := (bind m (fun _ => k))
  (at level 100, right associativity).

(** *** Python operations on JSON values *)

Fixpoint assoc {V} (k : string) (kvs : list (string * V)) : option V :=
  match kvs with
  | [] => None
  | (k', v) :: rest => if String.eqb k k' then Some v else assoc k rest
  end.

(** [d[k] = v]: overwrite in place, or append a new key. *)
Fixpoint dict_set (kvs : list (string * json)) (k : string) (v : json)
    : list (string * json) :=
  match kvs with
  | [] => [(k, v)]
  | (k', v') :: rest =>
      if String.eqb k k' then (k', v) :: rest else (k', v') :: dict_set rest k v
  end.

(** [d.update(kwargs)] *)
Definition dict_update (kvs upd : list (string * json)) : list (string * json) :=
  fold_left (fun acc kv => dict_set acc kv.1 kv.2) upd kvs.

(** [v[k]] with a string key. *)
Definition getitem_key (v : json) (k : string) : result json :=
  match v with
  | JObj kvs => match assoc k kvs with Some x => Ok x | None => Raise KeyError end
  | _ => Raise TypeError
  end.

(** Python [str] indexing returns a one-character string. *)
Definition str_nth (s : string) (i : nat) : option string :=
  match String.get i s with Some c => Some (String c EmptyString) | None => None end.

(** [v[i]] with an integer index. A dict has no integer keys (JSON keys
    are strings), so that is a [KeyError]. *)
Definition getitem_idx (v : json) (i : nat) : result json :=
  match v with
  | JList l => match nth_error l i with Some x => Ok x | None => Raise IndexError end
  | JStr s => match str_nth s i with Some c => Ok (JStr c) | None => Raise IndexError end
  | JObj _ => Raise KeyError
  | _ => Raise TypeError
  end.

(** [v.get(k, default)] *)
Definition dict_get (v : json) (k : string) (default : json) : result json :=
  match v with
  | JObj kvs => match assoc k kvs with Some x => Ok x | None => Ok default end
  | _ => Raise AttributeError
  end.

(** Python truthiness of an optional string argument ([if system:]). *)
Definition truthy (o : option string) : bool :=
  match o with Some s => negb (String.eqb s "") | None => false end.

(** ** The transport: [OpenRouterClient._request] *)

Definition BASE_URL : string := "https://openrouter.ai/api/v1".

(** The [error] member of a non-200 body, when it is an object: its
    [code] and [message] members, each possibly absent. *)
Record err_obj := { ecode : option Z; emessage : option string }.

(** What one [requests.get]/[requests.post] call yields. A 200 response
    with a JSON body is given by that body; any other response with a JSON
    body by its status, the [error] object of its body (if the body has
    one) and its raw text. A response whose body is not JSON (an HTML error
    page, say) is given by its status and the message of the
    [requests.exceptions.JSONDecodeError] that [response.json()] raises. *)
Inductive outcome :=
  | Resp200 (body : json)
  | RespErr (status : Z) (error : option err_obj) (text : string)
  | RespNotJson (status : Z) (decode_error : string)
  | Timeout                          (* requests.exceptions.Timeout *)
  | ConnError (cause : string).      (* any other RequestException, as str(e) *)

(** [s.startswith(prefix)] *)
Fixpoint startswith (s prefix : string) : bool :=
  match prefix, s with
  | EmptyString, _ => true
  | String p ps, String c cs => Ascii.eqb p c && startswith cs ps
  | String _ _, EmptyString => false
  end.

Definition request_url (endpoint : string) : string :=
  if startswith endpoint "http" then endpoint else BASE_URL +:+ "/" +:+ endpoint.

(** [code = error.get("code", response.status_code)] *)
Definition error_code (status : Z) (error : option err_obj) : Z :=
  match error with
  | Some e => match ecode e with Some c => c | None => status end
  | None => status
  end.

(** [message = error.get("message", response.text)] *)
Definition error_message (text : string) (error : option err_obj) : string :=
  match error with
  | Some e => match emessage e with Some m => m | None => text end
  | None => text
  end.

Definition retryable (code : Z) : bool :=
  bool_decide (code ∈ [408; 429; 502; 503]).

(** [min(2**attempt * 2, 30)] *)
Definition backoff (attempt : nat) : Z := Z.min (2 ^ Z.of_nat attempt * 2) 30.

(** [error_messages.get(code, message)] *)
Definition error_messages_get (code : Z) (message : string) : string :=
  if Z.eqb code 400 then "Bad request - check parameters"
  else if Z.eqb code 401 then "Invalid API key - check OPENROUTER_API_KEY"
  else if Z.eqb code 402 then "Insufficient credits - add funds at openrouter.ai"
  else if Z.eqb code 403 then "Content flagged by moderation"
  else if Z.eqb code 429 then "Rate limited - wait before retrying"
  else message.

Section Transport.

Variables (meth url : string) (payload : option json) (max_retries : Z).
(** The network: what the request of each attempt yields. *)
Variable net : nat -> outcome.

(** One iteration of [for attempt in range(max_retries)]: [Some body]
    returns, [None] continues with the next attempt. *)
Definition attempt_step (attempt : nat) : M (option json) :=
  emit (Send meth url payload) ;;;
  match net attempt with
  | Resp200 body => ret (Some body)
  | RespErr status error text =>
      let code := error_code status error in
      let message := error_message text error in
      if retryable code && bool_decide (Z.of_nat attempt < max_retries - 1) then
        let wait := backoff attempt in
        emit (Print ("Retrying in " +:+ pretty wait +:+ "s (attempt "
                     +:+ pretty (Z.of_nat attempt + 1) +:+ "/"
                     +:+ pretty max_retries +:+ ")...")) ;;;
        emit (Sleep wait) ;;;
        ret None
      else
        throw (Exception ("OpenRouter error " +:+ pretty code +:+ ": "
                          +:+ error_messages_get code message))
  | Timeout =>
      if bool_decide (Z.of_nat attempt < max_retries - 1) then ret None
      else throw (Exception "Request timed out after retries")
  | RespNotJson _ decode_error =>
      (* [response.json()] raises [JSONDecodeError], a [RequestException]:
         the [except requests.exceptions.RequestException] clause. *)
      throw (Exception ("Network error: " +:+ decode_error))
  | ConnError cause => throw (Exception ("Network error: " +:+ cause))
  end.

Fixpoint retry_loop (attempts : list nat) : M json :=
  match attempts with
  | [] => throw (Exception "Max retries exceeded")
  | a :: rest =>
      r <- attempt_step a ;;
      match r with Some body => ret body | None => retry_loop rest end
  end.

(** The loop from attempt [a] on. *)
Definition run_from (a : nat) : M json :=
  retry_loop (seq a (Z.to_nat max_retries - a)).

End Transport.

Definition request (meth endpoint : string) (payload : option json)
    (max_retries : Z) (net : nat -> outcome) : M json :=
  retry_loop meth (request_url endpoint) payload max_retries net
    (seq 0 (Z.to_nat max_retries)).

(** ** Transport: unfolding lemmas *)

Lemma bind_emit {A} (ev : event) (k : unit -> M A) :
  bind (emit ev) k = (ev :: (k tt).1, (k tt).2).
Proof. unfold bind, emit. simpl. by destruct (k tt). Qed.

Lemma bind_ret {A B} (a : A) (k : A -> M B) : bind (ret a) k = k a.
Proof. unfold bind, ret. simpl. by destruct (k a). Qed.

Lemma bind_throw {A B} (e : exn) (k : A -> M B) : bind (throw e) k = throw e.
Proof. reflexivity. Qed.

Lemma request_run_from meth endpoint payload max_retries net :
  request meth endpoint payload max_retries net
  = run_from meth (request_url endpoint) payload max_retries net 0.
Proof. unfold request, run_from. by rewrite Nat.sub_0_r. Qed.

Lemma run_from_cons meth url payload max_retries net a :
  Z.of_nat a < max_retries ->
  run_from meth url payload max_retries net a
  = bind (attempt_step meth url payload max_retries net a)
      (fun r => match r with
                | Some body => ret body
                | None => run_from meth url payload max_retries net (S a)
                end).
Proof.
  intros Ha. unfold run_from.
  replace (Z.to_nat max_retries - a)%nat
    with (S (Z.to_nat max_retries - S a)) by lia.
  reflexivity.
Qed.

Lemma run_from_end meth url payload max_retries net a :
  (Z.to_nat max_retries <= a)%nat ->
  run_from meth url payload max_retries net a
  = throw (Exception "Max retries exceeded").
Proof.
  intros Ha. unfold run_from.
  replace (Z.to_nat max_retries - a)%nat with 0%nat by lia.
  reflexivity.
Qed.

(** On the last allowed attempt no branch of the loop body continues. *)
Lemma attempt_step_last meth url payload max_retries net a :
  Z.of_nat a + 1 = max_retries ->
  (attempt_step meth url payload max_retries net a).2 <> Ok None.
Proof.
  intros Ha. unfold attempt_step. rewrite bind_emit. simpl.
  destruct (net a) as [body|status error text|status derr| |cause]; simpl; try discriminate.
  - rewrite (bool_decide_eq_false_2 (Z.of_nat a < max_retries - 1)) by lia.
    rewrite andb_false_r. discriminate.
  - rewrite (bool_decide_eq_false_2 (Z.of_nat a < max_retries - 1)) by lia.
    discriminate.
Qed.

(** No raise of the loop body is the generic exhaustion error. *)
Lemma attempt_step_not_exhausted meth url payload max_retries net a :
  (attempt_step meth url payload max_retries net a).2
  <> Raise (Exception "Max retries exceeded").
Proof.
  unfold attempt_step. rewrite bind_emit. simpl.
  destruct (net a) as [body|status error text|status derr| |cause]; simpl; try discriminate.
  - destruct (retryable _ && bool_decide _); simpl; [|discriminate].
    discriminate.
  - destruct (bool_decide _); simpl; discriminate.
Qed.

(** ** Transport: claims *)



(** The message of the [JSONDecodeError] that [response.json()] raises on
    a body that does not start with JSON, such as an HTML error page. *)
Definition html_decode_error : string := "Expecting value: line 1 column 1 (char 0)".

(** Claim C1. A 502 whose body is an HTML page rather than JSON, on the
    first of three attempts (so not the last): [response.json()] raises
    [JSONDecodeError], a [RequestException], and the call raises
    "Network error: ..." after that single request. It neither sleeps
    nor retries, although 502 is a retryable code. *)
Theorem bad_gateway_html_not_retried :
  request "POST" "chat/completions" None 3 (fun _ => RespNotJson 502 html_decode_error)
  = ([Send "POST" (request_url "chat/completions") None],
     Raise (Exception ("Network error: " +:+ html_decode_error))).
Proof. reflexivity. Qed.

(** Claim C2. A 401 whose body is an HTML page rather than JSON: the
    call fails after one request, but with "Network error: ..." from the
    [JSONDecodeError] of [response.json()]; the error carries neither the
    code 401 nor the table's text for it. *)
Theorem unauthorized_html_no_code :
  request "POST" "chat/completions" None 3 (fun _ => RespNotJson 401 html_decode_error)
  = ([Send "POST" (request_url "chat/completions") None],
     Raise (Exception ("Network error: " +:+ html_decode_error)))
  /\ forall msg,
     (request "POST" "chat/completions" None 3 (fun _ => RespNotJson 401 html_decode_error)).2
     <> Raise (Exception ("OpenRouter error 401: " +:+ msg)).
Proof.
  (* "Network error: ..." and "OpenRouter error 401: ..." differ at their
     first letter. *)
  split; [reflexivity|]. intros msg. simpl. intros [=].
Qed.

(** Claim C3. When every attempt times out, each non-final timeout is
    followed directly by the next request, with no sleep, and after the
    last attempt the call raises the distinct "timed out" error, not the
    generic "Max retries exceeded". *)
Theorem all_timeouts_timed_out meth endpoint payload max_retries net :
  1 <= max_retries ->
  (forall a, net a = Timeout) ->
  request meth endpoint payload max_retries net
  = (repeat (Send meth (request_url endpoint) payload) (Z.to_nat max_retries),
     Raise (Exception "Request timed out after retries")).
Proof.
  intros Hmax Hnet. rewrite request_run_from.
  assert (Hgen : forall k a, (a + S k = Z.to_nat max_retries)%nat ->
            run_from meth (request_url endpoint) payload max_retries net a
            = (repeat (Send meth (request_url endpoint) payload) (S k),
               Raise (Exception "Request timed out after retries"))).
  { induction k as [|k IH]; intros a Ha.
    - rewrite run_from_cons by lia.
      unfold attempt_step. rewrite bind_emit. simpl. rewrite Hnet. simpl.
      rewrite (bool_decide_eq_false_2 (Z.of_nat a < max_retries - 1)) by lia.
      reflexivity.
    - rewrite run_from_cons by lia.
      unfold attempt_step. rewrite bind_emit. simpl. rewrite Hnet. simpl.
      rewrite (bool_decide_eq_true_2 (Z.of_nat a < max_retries - 1)) by lia.
      simpl. rewrite (IH (S a)) by lia. reflexivity. }
  destruct (Z.to_nat max_retries) as [|k] eqn:E; [lia|].
  apply Hgen. lia.
Qed.

(** Claim C4. When the first attempt fails with a connection-level
    exception, the call raises a "Network error" wrapping the cause after
    that single request, whatever [max_retries] is. *)
Theorem connection_error_no_retry meth endpoint payload max_retries net cause :
  1 <= max_retries ->
  net 0%nat = ConnError cause ->
  request meth endpoint payload max_retries net
  = ([Send meth (request_url endpoint) payload],
     Raise (Exception ("Network error: " +:+ cause))).
Proof.
  intros Hmax Hnet. rewrite request_run_from, run_from_cons by lia.
  unfold attempt_step. rewrite bind_emit. simpl. rewrite Hnet. reflexivity.
Qed.

(** Claim C9. With [max_retries >= 1] the call never ends in the generic
    "Max retries exceeded" error: every iteration returns or raises before
    the loop runs out. With [max_retries <= 0] it raises that error without
    issuing any request. *)
Theorem max_retries_exceeded_unreachable meth endpoint payload max_retries net :
  (1 <= max_retries ->
   (request meth endpoint payload max_retries net).2
   <> Raise (Exception "Max retries exceeded"))
  /\ (max_retries <= 0 ->
      request meth endpoint payload max_retries net
      = ([], Raise (Exception "Max retries exceeded"))).
Proof.
  split; intros Hmax; rewrite request_run_from.
  - set (url := request_url endpoint).
    assert (Hgen : forall k a, (a + S k = Z.to_nat max_retries)%nat ->
              (run_from meth url payload max_retries net a).2
              <> Raise (Exception "Max retries exceeded")).
    { induction k as [|k IH]; intros a Ha; rewrite run_from_cons by lia;
        pose proof (attempt_step_not_exhausted meth url payload max_retries net a) as Hne;
        destruct (attempt_step meth url payload max_retries net a) as [tr [[body|]|e]] eqn:E;
        simpl in *.
      - destruct (ret body) eqn:?; simpl; unfold ret in *; congruence.
      - exfalso. apply (attempt_step_last meth url payload max_retries net a); [lia|].
        by rewrite E.
      - intros H; apply Hne; inversion H; reflexivity.
      - destruct (ret body) eqn:?; simpl; unfold ret in *; congruence.
      - destruct (run_from meth url payload max_retries net (S a)) eqn:E2.
        simpl. specialize (IH (S a) ltac:(lia)). rewrite E2 in IH. exact IH.
      - intros H; apply Hne; inversion H; reflexivity. }
    destruct (Z.to_nat max_retries) as [|k] eqn:E; [lia|].
    apply (Hgen k). lia.
  - apply run_from_end. lia.
Qed.

(** ** Chat: [chat] and [chat_simple] *)

Definition rbind {A B} (r : result A) (k : A -> result B) : result B :=
  match r with Ok a => k a | Raise e => Raise e end.

(** [{"role": role, "content": content}] *)
Definition message (role content : string) : json :=
  JObj [("role", JStr role); ("content", JStr content)].

(** [payload = {"model": model, "messages": messages}; payload.update(kwargs)] *)
Definition chat_payload (model : string) (messages : list json)
    (kwargs : list (string * json)) : list (string * json) :=
  dict_update [("model", JStr model); ("messages", JList messages)] kwargs.

Definition chat (model : string) (messages : list json)
    (kwargs : list (string * json)) (net : nat -> outcome) : M json :=
  request "POST" "chat/completions" (Some (JObj (chat_payload model messages kwargs))) 3 net.

(** [result["choices"][0]["message"]["content"]] *)
Definition choices_content (body : json) : result json :=
  rbind (getitem_key body "choices") (fun choices =>
  rbind (getitem_idx choices 0) (fun choice =>
  rbind (getitem_key choice "message") (fun msg =>
  getitem_key msg "content"))).

Definition chat_simple (model prompt : string) (system : option string)
    (kwargs : list (string * json)) (net : nat -> outcome) : M json :=
  let messages :=
    (if truthy system then [message "system" (default "" system)] else [])
    ++ [message "user" prompt] in
  result <- chat model messages kwargs net ;;
  lift (choices_content result).

(** The documented response path [choices[0].message.content]: a list of
    choices whose first element is an object with a [message] object. *)
Definition content_path (body : json) : option json :=
  match body with
  | JObj kvs =>
      match assoc "choices" kvs with
      | Some (JList (JObj choice :: _)) =>
          match assoc "message" choice with
          | Some (JObj msg) => assoc "content" msg
          | _ => None
          end
      | _ => None
      end
  | _ => None
  end.

(** The errors Python raises when a subscript path is missing. *)
Definition structural_error (e : exn) : Prop :=
  e = KeyError \/ e = IndexError \/ e = TypeError.

Lemma assoc_dict_set_ne k k' v kvs :
  k <> k' -> assoc k (dict_set kvs k' v) = assoc k kvs.
Proof.
  intros Hne. induction kvs as [|[k0 v0] kvs IH]; simpl.
  - destruct (String.eqb_spec k k'); congruence.
  - destruct (String.eqb_spec k' k0) as [->|Hk'].
    + simpl. destruct (String.eqb_spec k k0); congruence.
    + simpl. by rewrite IH.
Qed.

Lemma assoc_dict_update_notin k kvs upd :
  k ∉ upd.*1 -> assoc k (dict_update kvs upd) = assoc k kvs.
Proof.
  unfold dict_update. revert kvs.
  induction upd as [|[k' v'] upd IH]; intros kvs Hk; simpl; [done|].
  rewrite IH by set_solver. apply assoc_dict_set_ne. set_solver.
Qed.

Lemma choices_content_spec body :
  (forall v, choices_content body = Ok v <-> content_path body = Some v)
  /\ (content_path body = None ->
      exists e, choices_content body = Raise e /\ structural_error e).
Proof.
  unfold choices_content, content_path, structural_error.
  destruct body as [| | | |l|kvs]; simpl;
    try (split; [intros v; split; discriminate|eauto 10]).
  destruct (assoc "choices" kvs) as [choices|]; simpl;
    [|split; [intros v; split; discriminate|eauto 10]].
  destruct choices as [| | |s|l|kvs']; simpl;
    try (split; [intros v; split; discriminate|eauto 10]).
  - unfold str_nth. destruct (String.get 0 s); simpl;
      split; [intros v; split; discriminate|eauto 10| intros v; split; discriminate|eauto 10].
  - destruct l as [|[| | | | |choice] rest]; simpl;
      try (split; [intros v; split; discriminate|eauto 10]).
    destruct (assoc "message" choice) as [msg|]; simpl;
      [|split; [intros v; split; discriminate|eauto 10]].
    destruct msg as [| | | | |m]; simpl;
      try (split; [intros v; split; discriminate|eauto 10]).
    destruct (assoc "content" m) as [c|]; simpl.
    + split; [intros v; split; congruence|discriminate].
    + split; [intros v; split; discriminate|eauto 10].
Qed.

(** Claim C5. [chat_simple] posts one request whose [messages] are
    exactly [{role: user, content: prompt}] when no system prompt is given,
    and [{role: system, content: system}] followed by that user message
    when a (non-empty) system prompt is given; it returns exactly
    [choices[0].message.content] of the response, and raises a structural
    error (KeyError, IndexError or TypeError) when that path is absent.
    Python's call binding keeps [messages] out of [**kwargs]. *)
Theorem chat_simple_messages_content model prompt system kwargs net :
  "messages" ∉ kwargs.*1 ->
  exists payload,
    chat_simple model prompt system kwargs net
    = bind (request "POST" "chat/completions" (Some (JObj payload)) 3 net)
           (fun body => lift (choices_content body))
    /\ (system = None ->
        assoc "messages" payload = Some (JList [message "user" prompt]))
    /\ (forall s, system = Some s -> s <> "" ->
        assoc "messages" payload
        = Some (JList [message "system" s; message "user" prompt]))
    /\ (forall body,
        (forall v, choices_content body = Ok v <-> content_path body = Some v)
        /\ (content_path body = None ->
            exists e, choices_content body = Raise e /\ structural_error e)).
Proof.
  intros Hkw. eexists. split; [reflexivity|].
  split; [|split; [|exact choices_content_spec]].
  - intros ->. unfold chat_payload. by rewrite assoc_dict_update_notin.
  - intros s -> Hs. unfold chat_payload. rewrite assoc_dict_update_notin by done.
    simpl. apply String.eqb_neq in Hs. by rewrite Hs.
Qed.

(** ** Image generation: [generate_image] *)

(** *** Strings and paths *)

(** [s.split(sep)] *)
Fixpoint str_split (sep : ascii) (s : string) : list string :=
  match s with
  | EmptyString => [""]
  | String c t =>
      let rest := str_split sep t in
      if Ascii.eqb c sep then "" :: rest
      else match rest with
           | r :: rs => String c r :: rs
           | [] => [String c ""]
           end
  end.

(** Index of the last ['.'] ([name.rfind('.')], [None] for -1). *)
Fixpoint rfind_dot_go (l : list ascii) (i : nat) (acc : option nat) : option nat :=
  match l with
  | [] => acc
  | c :: t => rfind_dot_go t (S i) (if Ascii.eqb c "." then Some i else acc)
  end.

(** [(PurePath.stem, PurePath.suffix)] of a final path component:
    [i = name.rfind('.')]; the suffix is [name[i:]] when
    [0 < i < len(name) - 1], and empty otherwise. *)
Definition stem_suffix (name : string) : string * string :=
  let l := list_ascii_of_string name in
  match rfind_dot_go l 0 None with
  | Some i =>
      if bool_decide (0 < i < length l - 1)%nat
      then (string_of_list_ascii (take i l), string_of_list_ascii (drop i l))
      else (name, "")
  | None => (name, "")
  end.

(** A resolved absolute path as its list of components; [/] is [[]]. *)
Definition path := list string.
Definition path_parent (p : path) : path := removelast p.
Definition path_name (p : path) : string := List.last p "".

(** Python truthiness of a JSON value. *)
Definition json_truthy (v : json) : bool :=
  match v with
  | JNull => false
  | JBool b => b
  | JNum z => negb (Z.eqb z 0)
  | JStr s => negb (String.eqb s "")
  | JList l => negb (bool_decide (l = []))
  | JObj kvs => negb (bool_decide (kvs = []))
  end.

(** [for x in v]: a list yields its items, a string its characters, a
    dict its keys. *)
Definition json_iter (v : json) : result (list json) :=
  match v with
  | JList l => Ok l
  | JStr s => Ok (map (fun c => JStr (String c EmptyString)) (list_ascii_of_string s))
  | JObj kvs => Ok (map (fun kv => JStr kv.1) kvs)
  | _ => Raise TypeError
  end.

(** [payload] of [generate_image], with the optional top-level fields. *)
Definition image_payload (model prompt aspect_ratio size : string)
    (background quality output_format : option string) : list (string * json) :=
  let image_config := JObj [("aspect_ratio", JStr aspect_ratio); ("image_size", JStr size)] in
  let payload :=
    [("model", JStr model);
     ("messages", JList [message "user" prompt]);
     ("modalities", JList [JStr "image"; JStr "text"]);
     ("image_config", image_config);
     ("n", JNum 1)] in
  let payload := if truthy background
                 then dict_set payload "background" (JStr (default "" background))
                 else payload in
  let payload := if truthy quality
                 then dict_set payload "quality" (JStr (default "" quality))
                 else payload in
  if truthy output_format
  then dict_set payload "output_format" (JStr (default "" output_format))
  else payload.

(** [result["choices"][0]["message"].get("images", [])] *)
Definition message_images (body : json) : result json :=
  rbind (getitem_key body "choices") (fun choices =>
  rbind (getitem_idx choices 0) (fun choice =>
  rbind (getitem_key choice "message") (fun msg =>
  dict_get msg "images" (JList [])))).

(** The file an image goes to: [output] itself for a single image,
    [output.parent / f"{output.stem}_{idx}{output.suffix}"] otherwise. *)
Definition image_target (output : path) (count idx : nat) : path :=
  if Nat.eqb count 1 then output
  else let '(stem, suffix) := stem_suffix (path_name output) in
       path_parent output ++ [stem +:+ "_" +:+ pretty idx +:+ suffix].

Section GenerateImage.

(** [Path(p).resolve()], and [base64.b64decode]: the decoded bytes, or
    ([inl msg]) the message of the [binascii.Error] it raises. *)
Variable resolve : string -> path.
Variable b64decode : string -> string + list Byte.byte.

Fixpoint write_images (output : path) (count idx : nat) (imgs : list json) : M unit :=
  match imgs with
  | [] => ret tt
  | img :: rest =>
      image_url <- lift (getitem_key img "image_url") ;;
      url <- lift (getitem_key image_url "url") ;;
      data_url <- lift (match url with JStr s => Ok s | _ => Raise AttributeError end) ;;
      base64_data <- lift (match nth_error (str_split "," data_url) 1 with
                           | Some d => Ok d
                           | None => Raise IndexError
                           end) ;;
      let target := image_target output count idx in
      emit (Create target) ;;;
      data <- lift (match b64decode base64_data with
                    | inr b => Ok b
                    | inl msg => Raise (BinasciiError msg)
                    end) ;;
      emit (WriteBytes target data) ;;;
      write_images output count (S idx) rest
  end.

Definition generate_image (model prompt : string) (output_path : option string)
    (aspect_ratio size : string) (background quality output_format : option string)
    (net : nat -> outcome) : M json :=
  let payload := image_payload model prompt aspect_ratio size
                   background quality output_format in
  result <- request "POST" "chat/completions" (Some (JObj payload)) 3 net ;;
  images <- lift (message_images result) ;;
  (if truthy output_path && json_truthy images then
     let output := resolve (default "" output_path) in
     emit (Mkdir (path_parent output)) ;;;
     items <- lift (json_iter images) ;;
     write_images output (length items) 0 items
   else ret tt) ;;;
  ret images.

End GenerateImage.

(** The files opened for writing, and the files written, in order. *)
Definition created (tr : list event) : list path :=
  omap (fun ev => match ev with Create p => Some p | _ => None end) tr.
Definition written (tr : list event) : list path :=
  omap (fun ev => match ev with WriteBytes p _ => Some p | _ => None end) tr.

(** *** Image generation: lemmas on strings and paths *)

Lemma las_app (a b : string) :
  list_ascii_of_string (a +:+ b) = list_ascii_of_string a ++ list_ascii_of_string b.
Proof. induction a as [|c a IH]; simpl; [done|by rewrite IH]. Qed.

Lemma soa_app (l1 l2 : list ascii) :
  string_of_list_ascii (l1 ++ l2) = string_of_list_ascii l1 +:+ string_of_list_ascii l2.
Proof. induction l1 as [|c l1 IH]; simpl; [done|by rewrite IH]. Qed.

Lemma append_String c (s t : string) : String c s +:+ t = String c (s +:+ t).
Proof. reflexivity. Qed.

Lemma append_empty_r (s : string) : s +:+ "" = s.
Proof. induction s as [|c s IH]; [done|by rewrite append_String, IH]. Qed.

Lemma las_inj (a b : string) :
  list_ascii_of_string a = list_ascii_of_string b -> a = b.
Proof.
  intros H. rewrite <- (string_of_list_ascii_of_string a),
    <- (string_of_list_ascii_of_string b). by rewrite H.
Qed.

(** The stem followed by the suffix is the name again. *)
Lemma stem_suffix_app name :
  (stem_suffix name).1 +:+ (stem_suffix name).2 = name.
Proof.
  unfold stem_suffix.
  destruct (rfind_dot_go _ 0 None) as [i|]; [destruct (bool_decide _)|]; simpl;
    try apply append_empty_r.
  by rewrite <- soa_app, take_drop, string_of_list_ascii_of_string.
Qed.

Lemma str_split_nonempty sep s : str_split sep s <> [].
Proof.
  destruct s as [|c t]; simpl; [discriminate|].
  destruct (Ascii.eqb c sep); [discriminate|].
  destruct (str_split sep t); discriminate.
Qed.

Lemma str_split_app_nocomma a s :
  (","%char) ∉ list_ascii_of_string a ->
  str_split "," (a +:+ s)
  = match str_split "," s with r :: rs => (a +:+ r) :: rs | [] => [a] end.
Proof.
  intros Ha. induction a as [|c a IH].
  - pose proof (str_split_nonempty "," s).
    destruct (str_split "," s) eqn:E; [done|]. change ("" +:+ s) with s. by rewrite E.
  - rewrite append_String. simpl in Ha |- *.
    assert (Hc : Ascii.eqb c "," = false)
      by (apply Ascii.eqb_neq; intros ->; set_solver).
    rewrite Hc, IH by set_solver.
    pose proof (str_split_nonempty "," s). by destruct (str_split "," s).
Qed.

Lemma str_split_nocomma s :
  (","%char) ∉ list_ascii_of_string s -> str_split "," s = [s].
Proof.
  intros Hs. rewrite <- (append_empty_r s) at 1.
  rewrite str_split_app_nocomma by done. simpl. by rewrite append_empty_r.
Qed.

Definition no_comma (s : string) : Prop := ~ In ","%char (list_ascii_of_string s).

(** An image entry carrying a data URL [data:<mime>;base64,<payload>]. *)
Definition data_url_entry (img : json) (payload : string) : Prop :=
  exists image_url mime,
    getitem_key img "image_url" = Ok image_url
    /\ getitem_key image_url "url" = Ok (JStr ("data:" +:+ mime +:+ ";base64," +:+ payload))
    /\ no_comma mime /\ no_comma payload.

Lemma data_url_split mime payload :
  no_comma mime -> no_comma payload ->
  nth_error (str_split "," ("data:" +:+ mime +:+ ";base64," +:+ payload)) 1
  = Some payload.
Proof.
  unfold no_comma. rewrite <- !list_elem_of_In. intros Hm Hp.
  rewrite (str_split_app_nocomma "data:") by (simpl; set_solver).
  rewrite str_split_app_nocomma by done.
  simpl. rewrite str_split_nocomma by done. reflexivity.
Qed.

Lemma write_images_ok b64decode output count imgs idx :
  (forall img, img ∈ imgs ->
     exists payload bytes, data_url_entry img payload /\ b64decode payload = inr bytes) ->
  exists fs,
    write_images b64decode output count idx imgs = (fs, Ok tt)
    /\ created fs = map (image_target output count) (seq idx (length imgs))
    /\ written fs = map (image_target output count) (seq idx (length imgs)).
Proof.
  revert idx.
  induction imgs as [|img imgs IH]; intros idx Hwf; simpl.
  - by exists [].
  - destruct (Hwf img ltac:(left)) as (payload & bytes & (iu & mime & Hiu & Hu & Hm & Hp) & Hdec).
    destruct (IH (S idx)) as (fs & Hrun & Hc & Hw).
    { intros i Hi. apply Hwf. by right. }
    assert (Hsplit := data_url_split mime payload Hm Hp).
    remember ("data:" +:+ mime +:+ ";base64," +:+ payload) as u eqn:Eu.
    rewrite Hiu. simpl. rewrite Hu. simpl.
    destruct (str_split "," u) as [|x [|y ys]]; simpl in Hsplit; try discriminate.
    injection Hsplit as Hy. subst y. simpl.
    rewrite Hdec. simpl. rewrite Hrun. simpl.
    eexists. split; [reflexivity|]. simpl. by rewrite Hc, Hw.
Qed.

Lemma bind_ok {A B} (m : M A) (k : A -> M B) tr a :
  m = (tr, Ok a) -> bind m k = (tr ++ (k a).1, (k a).2).
Proof. intros ->. unfold bind. by destruct (k a). Qed.

Lemma NoDup_map_inj {A B} (f : A -> B) (l : list A) :
  (forall x y, f x = f y -> x = y) -> NoDup l -> NoDup (map f l).
Proof.
  intros Hf. induction 1 as [|x l Hx Hl IH]; simpl; constructor; [|done].
  intros Hin. apply list_elem_of_In, in_map_iff in Hin as (y & Hy & Hin).
  apply Hf in Hy. subst. by apply Hx, list_elem_of_In.
Qed.

Lemma numbered_name_inj (parent : path) stem suffix (i j : nat) :
  parent ++ [stem +:+ "_" +:+ pretty i +:+ suffix]
  = parent ++ [stem +:+ "_" +:+ pretty j +:+ suffix] -> i = j.
Proof.
  intros H. apply app_inv_head in H. injection H as H.
  apply (f_equal list_ascii_of_string) in H. rewrite !las_app in H.
  apply app_inv_head, app_inv_head, app_inv_tail, las_inj in H.
  by apply (inj pretty).
Qed.

Lemma numbered_name_ne (output : path) (i : nat) :
  let stem := (stem_suffix (path_name output)).1 in
  let suffix := (stem_suffix (path_name output)).2 in
  output <> path_parent output ++ [stem +:+ "_" +:+ pretty i +:+ suffix].
Proof.
  intros stem suffix H.
  pose proof (stem_suffix_app (path_name output)) as Hname. fold stem suffix in Hname.
  clearbody stem suffix.
  destruct (decide (output = [])) as [->|Hne]; [simpl in H; discriminate H|].
  assert (Hsplit : output = path_parent output ++ [path_name output])
    by (apply app_removelast_last; done).
  rewrite Hsplit in H at 1. apply app_inv_head in H. injection H as H.
  rewrite <- Hname in H.
  apply (f_equal (fun s => length (list_ascii_of_string s))) in H.
  rewrite !las_app, !length_app in H.
  change (length (list_ascii_of_string "_")) with 1%nat in H. lia.
Qed.

(** Claim C6. Given an output path and a non-empty list of image entries,
    each a data URL [data:<mime>;base64,<payload>] with a decodable
    payload: the parent directory of the resolved path is created; a
    single image is written to exactly the resolved path; [n >= 2] images
    are written to the [n] distinct files [{stem}_{i}{suffix}],
    [i = 0..n-1], in that parent directory, none of which is the given
    path. Without an output path, or with no image, nothing is created or
    written. The image list is returned in every case. *)
Theorem generate_image_files resolve b64decode model prompt output_path aspect_ratio size
    background quality output_format net tr body imgs :
  request "POST" "chat/completions"
    (Some (JObj (image_payload model prompt aspect_ratio size
                   background quality output_format))) 3 net = (tr, Ok body) ->
  message_images body = Ok (JList imgs) ->
  (forall img, img ∈ imgs ->
     exists payload bytes, data_url_entry img payload /\ b64decode payload = inr bytes) ->
  (forall p, output_path = Some p -> p <> "" -> imgs <> [] ->
   let output := resolve p in
   let n := length imgs in
   let stem := (stem_suffix (path_name output)).1 in
   let suffix := (stem_suffix (path_name output)).2 in
   exists fs,
     generate_image resolve b64decode model prompt output_path aspect_ratio size
       background quality output_format net
     = (tr ++ Mkdir (path_parent output) :: fs, Ok (JList imgs))
     /\ written fs = created fs
     /\ (n = 1%nat -> created fs = [output])
     /\ (2 <= n -> 
         created fs
         = map (fun i => path_parent output ++ [stem +:+ "_" +:+ pretty i +:+ suffix])
               (seq 0 n)
         /\ NoDup (created fs)
         /\ (output ∉ created fs)
         /\ stem +:+ suffix = path_name output)%nat)
  /\ (output_path = None \/ imgs = [] ->
      generate_image resolve b64decode model prompt output_path aspect_ratio size
        background quality output_format net
      = (tr, Ok (JList imgs))).
Proof.
  intros Hreq Himgs Hwf. split.
  - intros p -> Hp Hne output n stem suffix.
    assert (En : length imgs = n) by reflexivity.
    assert (Eo : resolve p = output) by reflexivity.
    clearbody n output.
    destruct (write_images_ok b64decode output n imgs 0 Hwf) as (fs & Hw & Hc & Hwr).
    rewrite En in Hc, Hwr.
    exists fs. unfold generate_image. cbv zeta.
    rewrite (bind_ok _ _ _ _ Hreq), Himgs. simpl.
    apply String.eqb_neq in Hp. rewrite Hp.
    rewrite (bool_decide_eq_false_2 (imgs = [])) by done. simpl.
    rewrite Eo, En, Hw. simpl. rewrite !app_nil_r.
    split; [done|]. split; [by rewrite Hc, Hwr|]. split.
    + intros Hn. rewrite Hc, Hn. simpl.
      reflexivity.
    + intros Hn. rewrite Hc.
      assert (Htgt : map (image_target output n) (seq 0 n)
                     = map (fun i => path_parent output ++ [stem +:+ "_" +:+ pretty i +:+ suffix])
                           (seq 0 n)).
      { apply map_ext. intros i. unfold image_target.
        destruct (Nat.eqb_spec n 1); [lia|].
        unfold stem, suffix. by destruct (stem_suffix (path_name output)). }
      rewrite Htgt. split; [done|]. split; [|split].
      * apply NoDup_map_inj; [|apply NoDup_seq].
        intros i j. apply numbered_name_inj.
      * rewrite list_elem_of_In, in_map_iff. intros (i & Hi & _).
        by apply (numbered_name_ne output i).
      * apply stem_suffix_app.
  - intros Hcase. unfold generate_image. cbv zeta.
    rewrite (bind_ok _ _ _ _ Hreq), Himgs. simpl.
    destruct Hcase as [->| ->]; simpl; [by rewrite !app_nil_r|].
    rewrite andb_false_r. simpl. by rewrite !app_nil_r.
Qed.

(** Claim C10. A supplied but empty optional string counts as absent: an
    empty system prompt adds no system message ([chat_simple] behaves as
    with no system prompt), and an empty [background], [quality] or
    [output_format] leaves that top-level field out of the payload, so
    [generate_image] behaves as if it had not been supplied. *)
Theorem empty_optional_strings_absent model prompt kwargs net resolve b64decode
    output_path aspect_ratio size background quality output_format :
  chat_simple model prompt (Some "") kwargs net = chat_simple model prompt None kwargs net
  /\ image_payload model prompt aspect_ratio size (Some "") quality output_format
     = image_payload model prompt aspect_ratio size None quality output_format
  /\ image_payload model prompt aspect_ratio size background (Some "") output_format
     = image_payload model prompt aspect_ratio size background None output_format
  /\ image_payload model prompt aspect_ratio size background quality (Some "")
     = image_payload model prompt aspect_ratio size background quality None
  /\ assoc "background" (image_payload model prompt aspect_ratio size None quality output_format) = None
  /\ assoc "quality" (image_payload model prompt aspect_ratio size background None output_format) = None
  /\ assoc "output_format" (image_payload model prompt aspect_ratio size background quality None) = None
  /\ generate_image resolve b64decode model prompt output_path aspect_ratio size
       (Some "") (Some "") (Some "") net
     = generate_image resolve b64decode model prompt output_path aspect_ratio size
         None None None net.
Proof.
  repeat split; try reflexivity.
  - unfold image_payload. simpl.
    destruct (truthy quality), (truthy output_format);
      rewrite ?assoc_dict_set_ne by done; reflexivity.
  - unfold image_payload. simpl.
    destruct (truthy background); simpl; destruct (truthy output_format);
      rewrite ?assoc_dict_set_ne by done; reflexivity.
  - unfold image_payload. simpl.
    destruct (truthy background), (truthy quality);
      rewrite ?assoc_dict_set_ne by done; reflexivity.
Qed.

(** ** Model catalog: [list_models] and [find_model] *)

(** [needle in hay] for strings. *)
Fixpoint str_contains (needle hay : string) : bool :=
  startswith hay needle ||
  match hay with
  | EmptyString => false
  | String _ t => str_contains needle t
  end.

(** [x in v]: list membership by [==] (a string equals only a string),
    substring for a string, key membership for a dict. *)
Definition py_in (x : string) (v : json) : result bool :=
  match v with
  | JList l => Ok (existsb (fun e => match e with JStr s => String.eqb s x | _ => false end) l)
  | JStr s => Ok (str_contains x s)
  | JObj kvs => Ok (existsb (fun kv => String.eqb kv.1 x) kvs)
  | _ => Raise TypeError
  end.

(** [v >= 100000] ([True]/[False] compare as 1/0). *)
Definition py_ge_100000 (v : json) : result bool :=
  match v with
  | JNum z => Ok (Z.leb 100000 z)
  | JBool _ => Ok false
  | _ => Raise TypeError
  end.

(** [[m for m in ms if p(m)]] *)
Fixpoint filter_r (p : json -> result bool) (ms : list json) : result (list json) :=
  match ms with
  | [] => Ok []
  | m :: rest =>
      rbind (p m) (fun keep =>
      rbind (filter_r p rest) (fun kept =>
      Ok (if keep then m :: kept else kept)))
  end.

Definition filter_models (p : json -> result bool) (models : json) : result json :=
  rbind (json_iter models) (fun ms => rbind (filter_r p ms) (fun kept => Ok (JList kept))).

Definition FRONTEND_MODELS_URL : string := "https://openrouter.ai/api/frontend/models".

(** The [if capability:] block of [list_models]. *)
Definition capability_filter (capability : option string) (models : json) : result json :=
  if truthy capability then
    let cap := default "" capability in
    if String.eqb cap "vision" then
      filter_models (fun m => rbind (dict_get m "input_modalities" (JList [])) (py_in "image")) models
    else if String.eqb cap "image_gen" then
      filter_models (fun m => rbind (dict_get m "output_modalities" (JList [])) (py_in "image")) models
    else if String.eqb cap "tools" then
      filter_models (fun m => rbind (dict_get m "supported_parameters" (JList [])) (py_in "tools")) models
    else if String.eqb cap "long_context" then
      filter_models (fun m => rbind (dict_get m "context_length" (JNum 0)) py_ge_100000) models
    else Ok models
  else Ok models.

Definition list_models (capability : option string) (net : nat -> outcome) : M json :=
  result <- request "GET" FRONTEND_MODELS_URL None 3 net ;;
  models <- lift (dict_get result "data" (JList [])) ;;
  lift (capability_filter capability models).

(** [str.lower()] restricted to ASCII text: [A-Z] to [a-z]. *)
Definition ascii_lower (c : ascii) : ascii :=
  let n := Ascii.nat_of_ascii c in
  if (65 <=? n)%nat && (n <=? 90)%nat then Ascii.ascii_of_nat (n + 32) else c.
Definition ascii_str_lower (s : string) : string :=
  string_of_list_ascii (map ascii_lower (list_ascii_of_string s)).

Section FindModel.

(** Python's [str.lower()], on strings given by their UTF-8 encoding. It
    follows the Unicode case tables (non-ASCII letters, the final sigma),
    so the search takes it as a parameter; on ASCII text it is
    [ascii_str_lower]. Substring tests on UTF-8 encodings agree with
    Python's [in] on the decoded strings. *)
Variable str_lower : string -> string.

Definition py_lower (v : json) : result string :=
  match v with JStr s => Ok (str_lower s) | _ => Raise AttributeError end.

(** [search_lower in m["slug"].lower() or search_lower in m["name"].lower()] *)
Definition slug_or_name_matches (search_lower : string) (m : json) : result bool :=
  rbind (getitem_key m "slug") (fun slug =>
  rbind (py_lower slug) (fun slug_lower =>
  if str_contains search_lower slug_lower then Ok true
  else rbind (getitem_key m "name") (fun name =>
       rbind (py_lower name) (fun name_lower =>
       Ok (str_contains search_lower name_lower))))).

Definition find_model (search_term : string) (net : nat -> outcome) : M (list json) :=
  models <- list_models None net ;;
  let search_lower := str_lower search_term in
  items <- lift (json_iter models) ;;
  lift (filter_r (slug_or_name_matches search_lower) items).

(** The [find_models] tool of the server: the first 20 matches, each as
    [{"slug", "name", "context_length"}]. *)
Definition simplify_match (m : json) : result json :=
  rbind (getitem_key m "slug") (fun slug =>
  rbind (getitem_key m "name") (fun name =>
  rbind (dict_get m "context_length" JNull) (fun cl =>
  Ok (JObj [("slug", slug); ("name", name); ("context_length", cl)])))).

Fixpoint map_r (f : json -> result json) (l : list json) : result (list json) :=
  match l with
  | [] => Ok []
  | x :: rest => rbind (f x) (fun y => rbind (map_r f rest) (fun ys => Ok (y :: ys)))
  end.

Definition find_models_tool (search_term : string) (net : nat -> outcome) : M (list json) :=
  matches <- find_model search_term net ;;
  lift (map_r simplify_match (take 20 matches)).

End FindModel.

(** *** Catalog entries *)

(** A model descriptor of the catalog, and its JSON form. *)
Record model_descr := {
  d_slug : string;
  d_name : string;
  d_context_length : Z;
  d_pricing : list (string * json);
  d_input_modalities : list string;
  d_output_modalities : list string;
  d_supported_parameters : list string
}.

Definition descr_json (d : model_descr) : json :=
  JObj [("slug", JStr (d_slug d));
        ("name", JStr (d_name d));
        ("context_length", JNum (d_context_length d));
        ("pricing", JObj (d_pricing d));
        ("input_modalities", JList (map JStr (d_input_modalities d)));
        ("output_modalities", JList (map JStr (d_output_modalities d)));
        ("supported_parameters", JList (map JStr (d_supported_parameters d)))].

(** Case-insensitive substring test. *)
Definition ci_contains (str_lower : string -> string) (needle hay : string) : Prop :=
  str_contains (str_lower needle) (str_lower hay) = true.
#[global] Instance ci_contains_dec str_lower needle hay :
  Decision (ci_contains str_lower needle hay).
Proof. unfold ci_contains. apply _. Defined.

(** *** Catalog lemmas *)

Lemma filter_r_map (P : model_descr -> Prop) `{!forall d, Decision (P d)}
    (p : json -> result bool) (cat : list model_descr) :
  (forall d, p (descr_json d) = Ok (bool_decide (P d))) ->
  filter_r p (map descr_json cat) = Ok (map descr_json (filter P cat)).
Proof.
  intros Hp. induction cat as [|d cat IH]; simpl; [done|].
  rewrite Hp. simpl. rewrite IH. simpl. rewrite filter_cons.
  destruct (decide (P d)) as [HP|HP].
  - by rewrite bool_decide_eq_true_2.
  - by rewrite bool_decide_eq_false_2.
Qed.

Lemma filter_none {A} (P : A -> Prop) `{!forall x, Decision (P x)} (l : list A) :
  (forall x, x ∈ l -> ~ P x) -> filter P l = [].
Proof.
  induction l as [|x l IH]; intros Hl; [done|].
  rewrite filter_cons_False by (apply Hl; set_solver). apply IH. set_solver.
Qed.

Lemma existsb_jstr (x : string) (l : list string) :
  existsb (fun e => match e with JStr s => String.eqb s x | _ => false end) (map JStr l)
  = bool_decide (x ∈ l).
Proof.
  induction l as [|a l IH]; simpl; [done|].
  rewrite IH. destruct (String.eqb_spec a x) as [->|Hne]; simpl.
  - symmetry. apply bool_decide_eq_true_2. set_solver.
  - apply bool_decide_ext. set_solver.
Qed.

Lemma list_models_eq capability net tr body cat :
  request "GET" FRONTEND_MODELS_URL None 3 net = (tr, Ok body) ->
  dict_get body "data" (JList []) = Ok (JList (map descr_json cat)) ->
  list_models capability net = (tr, capability_filter capability (JList (map descr_json cat))).
Proof.
  intros Hreq Hdata. unfold list_models.
  rewrite (bind_ok _ _ _ _ Hreq), Hdata. simpl. by rewrite !app_nil_r.
Qed.

Lemma find_model_eq str_lower search_term net tr body cat :
  request "GET" FRONTEND_MODELS_URL None 3 net = (tr, Ok body) ->
  dict_get body "data" (JList []) = Ok (JList (map descr_json cat)) ->
  find_model str_lower search_term net
  = (tr, filter_r (slug_or_name_matches str_lower (str_lower search_term)) (map descr_json cat)).
Proof.
  intros Hreq Hdata. unfold find_model.
  rewrite (bind_ok _ _ _ _ (list_models_eq None net tr body cat Hreq Hdata)).
  simpl. by rewrite !app_nil_r.
Qed.

Lemma slug_or_name_matches_descr str_lower search_term d :
  slug_or_name_matches str_lower (str_lower search_term) (descr_json d)
  = Ok (bool_decide (ci_contains str_lower search_term (d_slug d)
                     \/ ci_contains str_lower search_term (d_name d))).
Proof.
  unfold slug_or_name_matches. simpl.
  destruct (str_contains (str_lower search_term) (str_lower (d_slug d))) eqn:Es.
  - f_equal. symmetry. apply bool_decide_eq_true_2. by left.
  - simpl. destruct (str_contains (str_lower search_term) (str_lower (d_name d))) eqn:En.
    + f_equal. symmetry. apply bool_decide_eq_true_2. by right.
    + f_equal. symmetry. apply bool_decide_eq_false_2.
      unfold ci_contains. intros [H|H]; congruence.
Qed.

(** Claim C7. On a catalog of model descriptors, [list_models "vision"]
    returns exactly the entries whose input modalities contain "image",
    ["image_gen"] those whose output modalities contain "image", ["tools"]
    those whose supported parameters contain "tools", ["long_context"]
    those with context length at least 100000, each in catalog order; any
    other filter name (or none) returns the whole catalog. *)
Theorem list_models_capability_filters capability net tr body cat :
  request "GET" FRONTEND_MODELS_URL None 3 net = (tr, Ok body) ->
  dict_get body "data" (JList []) = Ok (JList (map descr_json cat)) ->
  (capability = Some "vision" ->
   list_models capability net
   = (tr, Ok (JList (map descr_json (filter (fun d => "image" ∈ d_input_modalities d) cat)))))
  /\ (capability = Some "image_gen" ->
      list_models capability net
      = (tr, Ok (JList (map descr_json (filter (fun d => "image" ∈ d_output_modalities d) cat)))))
  /\ (capability = Some "tools" ->
      list_models capability net
      = (tr, Ok (JList (map descr_json (filter (fun d => "tools" ∈ d_supported_parameters d) cat)))))
  /\ (capability = Some "long_context" ->
      list_models capability net
      = (tr, Ok (JList (map descr_json (filter (fun d => 100000 <= d_context_length d) cat)))))
  /\ (capability ∉ [Some "vision"; Some "image_gen"; Some "tools"; Some "long_context"] ->
      list_models capability net = (tr, Ok (JList (map descr_json cat)))).
Proof.
  intros Hreq Hdata.
  rewrite (list_models_eq capability net tr body cat Hreq Hdata).
  split; [|split; [|split; [|split]]].
  - intros ->. unfold capability_filter, filter_models. simpl.
    rewrite (filter_r_map (fun d => "image" ∈ d_input_modalities d)); [done|].
    intros d. simpl. f_equal. apply existsb_jstr.
  - intros ->. unfold capability_filter, filter_models. simpl.
    rewrite (filter_r_map (fun d => "image" ∈ d_output_modalities d)); [done|].
    intros d. simpl. f_equal. apply existsb_jstr.
  - intros ->. unfold capability_filter, filter_models. simpl.
    rewrite (filter_r_map (fun d => "tools" ∈ d_supported_parameters d)); [done|].
    intros d. simpl. f_equal. apply existsb_jstr.
  - intros ->. unfold capability_filter, filter_models. simpl.
    rewrite (filter_r_map (fun d => 100000 <= d_context_length d)); [done|].
    intros d. simpl. f_equal.
    destruct (Z.leb_spec 100000 (d_context_length d)); symmetry;
      [apply bool_decide_eq_true_2 | apply bool_decide_eq_false_2]; lia.
  - intros Hcap. unfold capability_filter.
    destruct capability as [cap|]; [|done]. simpl.
    destruct (String.eqb cap "") eqn:E0; [done|]. simpl.
    destruct (String.eqb_spec cap "vision"); [subst; set_solver|].
    destruct (String.eqb_spec cap "image_gen"); [subst; set_solver|].
    destruct (String.eqb_spec cap "tools"); [subst; set_solver|].
    destruct (String.eqb_spec cap "long_context"); [subst; set_solver|].
    done.
Qed.

(** Claim C8. [find_model] returns exactly the catalog entries whose slug
    or name contains the search term case-insensitively (both lowered by
    [str.lower()], whatever its case tables), in catalog order
    and with no cap on their number; changing the case of the term changes
    nothing; a term without matches yields the empty list. The server's
    [find_models] tool is what keeps only the first 20. *)
Theorem find_model_ci_matches str_lower search_term net tr body cat :
  request "GET" FRONTEND_MODELS_URL None 3 net = (tr, Ok body) ->
  dict_get body "data" (JList []) = Ok (JList (map descr_json cat)) ->
  let matches := filter (fun d => ci_contains str_lower search_term (d_slug d)
                                  \/ ci_contains str_lower search_term (d_name d)) cat in
  find_model str_lower search_term net = (tr, Ok (map descr_json matches))
  /\ (forall t', str_lower t' = str_lower search_term ->
      find_model str_lower t' net = find_model str_lower search_term net)
  /\ ((forall d, d ∈ cat -> ~ ci_contains str_lower search_term (d_slug d)
                            /\ ~ ci_contains str_lower search_term (d_name d)) ->
      find_model str_lower search_term net = (tr, Ok []))
  /\ find_models_tool str_lower search_term net
     = (tr, Ok (map (fun d => JObj [("slug", JStr (d_slug d)); ("name", JStr (d_name d));
                                    ("context_length", JNum (d_context_length d))])
                    (take 20 matches))).
Proof.
  intros Hreq Hdata matches.
  assert (Hfind : find_model str_lower search_term net = (tr, Ok (map descr_json matches))).
  { rewrite (find_model_eq str_lower search_term net tr body cat Hreq Hdata).
    rewrite (filter_r_map (fun d => ci_contains str_lower search_term (d_slug d)
                                    \/ ci_contains str_lower search_term (d_name d))); [done|].
    intros d. apply slug_or_name_matches_descr. }
  split; [done|split; [|split]].
  - intros t' Ht'. rewrite !(find_model_eq str_lower _ net tr body cat Hreq Hdata). by rewrite Ht'.
  - intros Hnone. rewrite Hfind. unfold matches. rewrite filter_none; [done|].
    intros d Hd [H|H]; destruct (Hnone d Hd) as [H1 H2]; auto.
  - unfold find_models_tool. rewrite Hfind. unfold bind, lift. simpl.
    rewrite app_nil_r. f_equal.
    generalize matches. clear. intros l. generalize 20%nat as n.
    induction l as [|d l IH]; intros [|n]; simpl; [done..|]. by rewrite IH.
Qed.

(** ** Concrete runs *)


(** A response that always rejects the key. *)
Definition net_unauthorized : nat -> outcome := fun _ => RespErr 401 None "denied".

(** An image entry as OpenRouter returns it, and a response carrying two. *)
Definition sample_image : json :=
  JObj [("type", JStr "image_url");
        ("image_url", JObj [("url", JStr "data:image/png;base64,AAAA")])].
Definition sample_image_body : json :=
  JObj [("choices", JList [JObj [("message",
    JObj [("role", JStr "assistant"); ("images", JList [sample_image; sample_image])])]])].
Definition sample_resolve (s : string) : path := ["/"; "work"; s].
Definition sample_b64decode (s : string) : string + list Byte.byte :=
  inr [Byte.x00; Byte.x00; Byte.x00].

(** A two-entry catalog. *)
Definition sample_vision : model_descr := {|
  d_slug := "openai/gpt-4o"; d_name := "GPT-4o"; d_context_length := 128000;
  d_pricing := []; d_input_modalities := ["text"; "image"];
  d_output_modalities := ["text"]; d_supported_parameters := ["tools"] |}.
Definition sample_text : model_descr := {|
  d_slug := "meta/llama-3-8b"; d_name := "Llama 3 8B"; d_context_length := 8192;
  d_pricing := []; d_input_modalities := ["text"];
  d_output_modalities := ["text"]; d_supported_parameters := [] |}.
Definition sample_catalog_body : json :=
  JObj [("data", JList (map descr_json [sample_vision; sample_text]))].



Lemma all_timeouts_timed_out_witness :
  1 <= 2 /\ (forall a, (fun _ : nat => Timeout) a = Timeout)
  /\ request "GET" "models" None 2 (fun _ => Timeout)
     = (repeat (Send "GET" (request_url "models") None) (Z.to_nat 2),
        Raise (Exception "Request timed out after retries")).
Proof.
  split; [lia|]. split; [reflexivity|].
  apply (all_timeouts_timed_out "GET" "models" None 2 (fun _ => Timeout)).
  - lia.
  - intros a. reflexivity.
Defined.

Lemma connection_error_no_retry_witness :
  1 <= 3 /\ (fun _ : nat => ConnError "connection refused") 0%nat = ConnError "connection refused"
  /\ request "POST" "chat/completions" None 3 (fun _ => ConnError "connection refused")
     = ([Send "POST" (request_url "chat/completions") None],
        Raise (Exception ("Network error: " +:+ "connection refused"))).
Proof.
  split; [lia|]. split; [reflexivity|].
  apply (connection_error_no_retry "POST" "chat/completions" None 3
           (fun _ => ConnError "connection refused") "connection refused").
  - lia.
  - reflexivity.
Defined.

Lemma max_retries_exceeded_unreachable_witness :
  (1 <= 3 -> (request "GET" "models" None 3 (fun _ => Timeout)).2
             <> Raise (Exception "Max retries exceeded"))
  /\ (0 <= 0 -> request "GET" "models" None 0 (fun _ => Timeout)
               = ([], Raise (Exception "Max retries exceeded"))).
Proof.
  split.
  - apply (max_retries_exceeded_unreachable "GET" "models" None 3 (fun _ => Timeout)).
  - apply (max_retries_exceeded_unreachable "GET" "models" None 0 (fun _ => Timeout)).
Defined.

Lemma chat_simple_messages_content_witness :
  ("messages" ∉ ([("temperature", JNum 0)] : list (string * json)).*1)
  /\ exists payload,
    chat_simple "m" "hi" (Some "be brief") [("temperature", JNum 0)] net_unauthorized
    = bind (request "POST" "chat/completions" (Some (JObj payload)) 3 net_unauthorized)
           (fun body => lift (choices_content body))
    /\ (Some "be brief" = None ->
        assoc "messages" payload = Some (JList [message "user" "hi"]))
    /\ (forall s, Some "be brief" = Some s -> s <> "" ->
        assoc "messages" payload
        = Some (JList [message "system" s; message "user" "hi"]))
    /\ (forall body,
        (forall v, choices_content body = Ok v <-> content_path body = Some v)
        /\ (content_path body = None ->
            exists e, choices_content body = Raise e /\ structural_error e)).
Proof.
  split; [apply (bool_decide_unpack _); vm_compute; reflexivity|].
  apply (chat_simple_messages_content "m" "hi" (Some "be brief") [("temperature", JNum 0)]
           net_unauthorized).
  apply (bool_decide_unpack _). vm_compute. reflexivity.
Defined.

Lemma generate_image_files_witness :
  request "POST" "chat/completions"
    (Some (JObj (image_payload "img-model" "a cat" "1:1" "1K" None None None))) 3
    (fun _ => Resp200 sample_image_body)
  = ([Send "POST" (request_url "chat/completions")
        (Some (JObj (image_payload "img-model" "a cat" "1:1" "1K" None None None)))],
     Ok sample_image_body)
  /\ message_images sample_image_body = Ok (JList [sample_image; sample_image])
  /\ (forall img, img ∈ [sample_image; sample_image] ->
      exists payload bytes, data_url_entry img payload /\ sample_b64decode payload = inr bytes)
  /\ (forall p, Some "cat.png" = Some p -> p <> "" -> [sample_image; sample_image] <> [] ->
      let output := sample_resolve p in
      let n := length [sample_image; sample_image] in
      let stem := (stem_suffix (path_name output)).1 in
      let suffix := (stem_suffix (path_name output)).2 in
      exists fs,
        generate_image sample_resolve sample_b64decode "img-model" "a cat" (Some "cat.png")
          "1:1" "1K" None None None (fun _ => Resp200 sample_image_body)
        = ([Send "POST" (request_url "chat/completions")
              (Some (JObj (image_payload "img-model" "a cat" "1:1" "1K" None None None)))]
             ++ Mkdir (path_parent output) :: fs,
           Ok (JList [sample_image; sample_image]))
        /\ written fs = created fs
        /\ (n = 1%nat -> created fs = [output])
        /\ (2 <= n ->
            created fs
            = map (fun i => path_parent output ++ [stem +:+ "_" +:+ pretty i +:+ suffix])
                  (seq 0 n)
            /\ NoDup (created fs)
            /\ (output ∉ created fs)
            /\ stem +:+ suffix = path_name output)%nat)
  /\ (Some "cat.png" = None \/ [sample_image; sample_image] = [] ->
      generate_image sample_resolve sample_b64decode "img-model" "a cat" (Some "cat.png")
        "1:1" "1K" None None None (fun _ => Resp200 sample_image_body)
      = ([Send "POST" (request_url "chat/completions")
            (Some (JObj (image_payload "img-model" "a cat" "1:1" "1K" None None None)))],
         Ok (JList [sample_image; sample_image]))).
Proof.
  assert (Hwf : forall img, img ∈ [sample_image; sample_image] ->
      exists payload bytes, data_url_entry img payload /\ sample_b64decode payload = inr bytes).
  { intros img Hin. assert (img = sample_image) as -> by set_solver.
    exists "AAAA", [Byte.x00; Byte.x00; Byte.x00]. split; [|reflexivity].
    exists (JObj [("url", JStr "data:image/png;base64,AAAA")]), "image/png".
    split; [reflexivity|]. split; [reflexivity|].
    unfold no_comma. split; vm_compute; intuition discriminate. }
  split; [reflexivity|]. split; [reflexivity|]. split; [exact Hwf|].
  apply (generate_image_files sample_resolve sample_b64decode "img-model" "a cat"
           (Some "cat.png") "1:1" "1K" None None None (fun _ => Resp200 sample_image_body)
           [Send "POST" (request_url "chat/completions")
              (Some (JObj (image_payload "img-model" "a cat" "1:1" "1K" None None None)))]
           sample_image_body [sample_image; sample_image]).
  - reflexivity.
  - reflexivity.
  - exact Hwf.
Defined.

Lemma list_models_capability_filters_witness :
  request "GET" FRONTEND_MODELS_URL None 3 (fun _ => Resp200 sample_catalog_body)
  = ([Send "GET" (request_url FRONTEND_MODELS_URL) None], Ok sample_catalog_body)
  /\ dict_get sample_catalog_body "data" (JList [])
     = Ok (JList (map descr_json [sample_vision; sample_text]))
  /\ (Some "vision" = Some "vision" ->
      list_models (Some "vision") (fun _ => Resp200 sample_catalog_body)
      = ([Send "GET" (request_url FRONTEND_MODELS_URL) None],
         Ok (JList (map descr_json (filter (fun d => "image" ∈ d_input_modalities d)
                                           [sample_vision; sample_text])))))
  /\ (Some "vision" = Some "image_gen" ->
      list_models (Some "vision") (fun _ => Resp200 sample_catalog_body)
      = ([Send "GET" (request_url FRONTEND_MODELS_URL) None],
         Ok (JList (map descr_json (filter (fun d => "image" ∈ d_output_modalities d)
                                           [sample_vision; sample_text])))))
  /\ (Some "vision" = Some "tools" ->
      list_models (Some "vision") (fun _ => Resp200 sample_catalog_body)
      = ([Send "GET" (request_url FRONTEND_MODELS_URL) None],
         Ok (JList (map descr_json (filter (fun d => "tools" ∈ d_supported_parameters d)
                                           [sample_vision; sample_text])))))
  /\ (Some "vision" = Some "long_context" ->
      list_models (Some "vision") (fun _ => Resp200 sample_catalog_body)
      = ([Send "GET" (request_url FRONTEND_MODELS_URL) None],
         Ok (JList (map descr_json (filter (fun d => 100000 <= d_context_length d)
                                           [sample_vision; sample_text])))))
  /\ (Some "vision" ∉ [Some "vision"; Some "image_gen"; Some "tools"; Some "long_context"] ->
      list_models (Some "vision") (fun _ => Resp200 sample_catalog_body)
      = ([Send "GET" (request_url FRONTEND_MODELS_URL) None],
         Ok (JList (map descr_json [sample_vision; sample_text])))).
Proof.
  split; [reflexivity|]. split; [reflexivity|].
  apply (list_models_capability_filters (Some "vision") (fun _ => Resp200 sample_catalog_body)
           [Send "GET" (request_url FRONTEND_MODELS_URL) None] sample_catalog_body
           [sample_vision; sample_text]).
  - reflexivity.
  - reflexivity.
Defined.

Lemma find_model_ci_matches_witness :
  request "GET" FRONTEND_MODELS_URL None 3 (fun _ => Resp200 sample_catalog_body)
  = ([Send "GET" (request_url FRONTEND_MODELS_URL) None], Ok sample_catalog_body)
  /\ dict_get sample_catalog_body "data" (JList [])
     = Ok (JList (map descr_json [sample_vision; sample_text]))
  /\ let matches := filter (fun d => ci_contains ascii_str_lower "GPT" (d_slug d)
                                     \/ ci_contains ascii_str_lower "GPT" (d_name d))
                           [sample_vision; sample_text] in
     find_model ascii_str_lower "GPT" (fun _ => Resp200 sample_catalog_body)
     = ([Send "GET" (request_url FRONTEND_MODELS_URL) None], Ok (map descr_json matches))
     /\ (forall t', ascii_str_lower t' = ascii_str_lower "GPT" ->
         find_model ascii_str_lower t' (fun _ => Resp200 sample_catalog_body)
         = find_model ascii_str_lower "GPT" (fun _ => Resp200 sample_catalog_body))
     /\ ((forall d, d ∈ [sample_vision; sample_text] ->
          ~ ci_contains ascii_str_lower "GPT" (d_slug d) /\ ~ ci_contains ascii_str_lower "GPT" (d_name d)) ->
         find_model ascii_str_lower "GPT" (fun _ => Resp200 sample_catalog_body)
         = ([Send "GET" (request_url FRONTEND_MODELS_URL) None], Ok []))
     /\ find_models_tool ascii_str_lower "GPT" (fun _ => Resp200 sample_catalog_body)
        = ([Send "GET" (request_url FRONTEND_MODELS_URL) None],
           Ok (map (fun d => JObj [("slug", JStr (d_slug d)); ("name", JStr (d_name d));
                                   ("context_length", JNum (d_context_length d))])
                   (take 20 matches))).
Proof.
  split; [reflexivity|]. split; [reflexivity|].
  apply (find_model_ci_matches ascii_str_lower "GPT" (fun _ => Resp200 sample_catalog_body)
           [Send "GET" (request_url FRONTEND_MODELS_URL) None] sample_catalog_body
           [sample_vision; sample_text]).
  - reflexivity.
  - reflexivity.
Defined.

(** * Further properties of the client and the server *)

(** ** Transport: the loop over any network *)

(** The requests and the sleeps of a trace. *)
Definition sent (tr : list event) : list (string * string * option json) :=
  omap (fun ev => match ev with Send m u p => Some (m, u, p) | _ => None end) tr.
Definition slept (tr : list event) : list Z :=
  omap (fun ev => match ev with Sleep s => Some s | _ => None end) tr.

(** The retry diagnostic of attempt [a]. *)
Definition retry_line (max_retries : Z) (a : nat) : string :=
  "Retrying in " +:+ pretty (backoff a) +:+ "s (attempt "
  +:+ pretty (Z.of_nat a + 1) +:+ "/" +:+ pretty max_retries +:+ ")...".

Lemma attempt_step_eq meth url payload max_retries net a :
  attempt_step meth url payload max_retries net a
  = match net a with
    | Resp200 body => ([Send meth url payload], Ok (Some body))
    | RespErr status error text =>
        if retryable (error_code status error)
           && bool_decide (Z.of_nat a < max_retries - 1)
        then ([Send meth url payload; Print (retry_line max_retries a); Sleep (backoff a)],
              Ok None)
        else ([Send meth url payload],
              Raise (Exception ("OpenRouter error " +:+ pretty (error_code status error)
                                +:+ ": " +:+ error_messages_get (error_code status error)
                                                 (error_message text error))))
    | Timeout =>
        if bool_decide (Z.of_nat a < max_retries - 1)
        then ([Send meth url payload], Ok None)
        else ([Send meth url payload], Raise (Exception "Request timed out after retries"))
    | RespNotJson _ decode_error =>
        ([Send meth url payload], Raise (Exception ("Network error: " +:+ decode_error)))
    | ConnError cause => ([Send meth url payload], Raise (Exception ("Network error: " +:+ cause)))
    end.
Proof.
  unfold attempt_step. rewrite bind_emit.
  destruct (net a) as [body|status error text|status derr| |cause]; simpl;
    try destruct (_ && _); try destruct (bool_decide _); reflexivity.
Qed.

Lemma run_from_unfold meth url payload max_retries net a :
  Z.of_nat a < max_retries ->
  run_from meth url payload max_retries net a
  = match attempt_step meth url payload max_retries net a with
    | (t, Ok (Some body)) => (t, Ok body)
    | (t, Ok None) => (t ++ (run_from meth url payload max_retries net (S a)).1,
                       (run_from meth url payload max_retries net (S a)).2)
    | (t, Raise e) => (t, Raise e)
    end.
Proof.
  intros Ha. rewrite run_from_cons by done. unfold bind.
  destruct (attempt_step _ _ _ _ _ a) as [t [[body|]|e]]; simpl.
  - by rewrite app_nil_r.
  - by destruct (run_from _ _ _ _ _ (S a)).
  - done.
Qed.

Lemma seq_sub_cons a n :
  (a < n - 1)%nat -> seq a (n - 1 - a) = a :: seq (S a) (n - 1 - S a).
Proof. intros H. replace (n - 1 - a)%nat with (S (n - 1 - S a)) by lia. reflexivity. Qed.

Lemma backoff_range a : 2 <= backoff a <= 30.
Proof.
  unfold backoff. pose proof (Z.pow_pos_nonneg 2 (Z.of_nat a) ltac:(lia) ltac:(lia)). lia.
Qed.

Ltac attempt_cases net a :=
  rewrite attempt_step_eq;
  destruct (net a) as [?body|?status ?error ?text|?status ?derr| |?cause] eqn:?Enet;
  [| destruct (_ && _) eqn:?Ecase | | destruct (bool_decide _) eqn:?Ecase |]; simpl.

Lemma sent_app t r : sent (t ++ r) = sent t ++ sent r.
Proof. apply omap_app. Qed.
Lemma slept_app t r : slept (t ++ r) = slept t ++ slept r.
Proof. apply omap_app. Qed.

Definition transport_event (meth url : string) (payload : option json) (ev : event) : Prop :=
  ev = Send meth url payload \/ (exists l, ev = Print l) \/ (exists s, ev = Sleep s).

Lemma run_from_bounds meth url payload max_retries net :
  forall k a, (Z.to_nat max_retries - a = k)%nat ->
  let tr := (run_from meth url payload max_retries net a).1 in
  (length (sent tr) <= k)%nat
  /\ (exists L, L `sublist_of` seq a (Z.to_nat max_retries - 1 - a) /\ slept tr = map backoff L)
  /\ Forall (transport_event meth url payload) tr.
Proof.
  induction k as [|k IH]; intros a Hk tr; subst tr.
  - rewrite run_from_end by lia. simpl. split; [lia|].
    split; [exists []; split; [apply sublist_nil_l|done]|constructor].
  - assert (Hsend : transport_event meth url payload (Send meth url payload)) by (left; done).
    rewrite run_from_unfold by lia. attempt_cases net a.
    + split; [simpl; lia|]. split; [exists []; split; [apply sublist_nil_l|done]|].
      by constructor.
    + apply andb_true_iff in Ecase as [_ Hlt]. apply bool_decide_eq_true_1 in Hlt.
      destruct (IH (S a) ltac:(lia)) as (Hlen & (L & HL & Hsl) & Hev).
      unfold sent, slept in *. simpl. split; [lia|]. split.
      * exists (a :: L). rewrite seq_sub_cons by lia. split; [by constructor|].
        simpl. by rewrite Hsl.
      * constructor; [done|]. constructor; [right; left; eauto|].
        constructor; [right; right; eauto|]. exact Hev.
    + split; [simpl; lia|]. split; [exists []; split; [apply sublist_nil_l|done]|].
      by constructor.
    + split; [simpl; lia|]. split; [exists []; split; [apply sublist_nil_l|done]|].
      by constructor.
    + apply bool_decide_eq_true_1 in Ecase.
      destruct (IH (S a) ltac:(lia)) as (Hlen & (L & HL & Hsl) & Hev).
      unfold sent, slept in *. simpl. split; [lia|]. split.
      * exists L. rewrite seq_sub_cons by lia. split; [by constructor|done].
      * by constructor.
    + split; [simpl; lia|]. split; [exists []; split; [apply sublist_nil_l|done]|].
      by constructor.
    + split; [simpl; lia|]. split; [exists []; split; [apply sublist_nil_l|done]|].
      by constructor.
Qed.

Lemma run_from_ok_source meth url payload max_retries net body :
  forall k a, (Z.to_nat max_retries - a = k)%nat ->
  (run_from meth url payload max_retries net a).2 = Ok body ->
  exists a', (a <= a' < Z.to_nat max_retries)%nat /\ net a' = Resp200 body.
Proof.
  induction k as [|k IH]; intros a Hk Hok.
  - rewrite run_from_end in Hok by lia. discriminate.
  - rewrite run_from_unfold in Hok by lia. revert Hok. attempt_cases net a; intros Hok;
      try discriminate.
    + injection Hok as ->. exists a. split; [lia|done].
    + destruct (IH (S a) ltac:(lia) Hok) as (a' & Ha' & Hnet). exists a'. split; [lia|done].
    + destruct (IH (S a) ltac:(lia) Hok) as (a' & Ha' & Hnet). exists a'. split; [lia|done].
Qed.




(** [_request] only returns a body that the network sent with status 200
    on one of its [max_retries] attempts. *)
Theorem request_ok_from_200 meth endpoint payload max_retries net body :
  (request meth endpoint payload max_retries net).2 = Ok body ->
  exists a, (a < Z.to_nat max_retries)%nat /\ net a = Resp200 body.
Proof.
  rewrite request_run_from. intros Hok.
  destruct (run_from_ok_source _ _ _ _ _ body _ 0 eq_refl Hok) as (a & Ha & Hnet).
  exists a. split; [lia|done].
Qed.

(** Whatever the network does, [_request] sends at most [max_retries]
    requests, and its sleeps are the backoff waits [min(2^a * 2, 30)] of
    distinct attempts [a < max_retries - 1], in increasing order; so each
    wait lies between 2 and 30. *)
Theorem request_bounded_waits meth endpoint payload max_retries net :
  let tr := (request meth endpoint payload max_retries net).1 in
  (length (sent tr) <= Z.to_nat max_retries)%nat
  /\ (exists L, L `sublist_of` seq 0 (Z.to_nat max_retries - 1) /\ slept tr = map backoff L)
  /\ Forall (fun s => 2 <= s <= 30) (slept tr).
Proof.
  intros tr. subst tr. rewrite request_run_from.
  destruct (run_from_bounds meth (request_url endpoint) payload max_retries net
              _ 0 eq_refl) as (Hlen & (L & HL & Hsl) & _).
  rewrite Nat.sub_0_r in *. split; [done|]. split; [by exists L|].
  rewrite Hsl. apply Forall_forall. intros s Hs.
  apply list_elem_of_In, in_map_iff in Hs as (a & <- & _). apply backoff_range.
Qed.

(** Every request of [_request] goes to the same URL with the same payload
    (the endpoint itself when it starts with "http", else BASE_URL/endpoint),
    and its only other effects are retry diagnostics and sleeps. *)
Theorem request_effects meth endpoint payload max_retries net :
  Forall (fun ev => ev = Send meth (request_url endpoint) payload
                    \/ (exists l, ev = Print l) \/ (exists s, ev = Sleep s))
         (request meth endpoint payload max_retries net).1
  /\ request_url endpoint
     = (if startswith endpoint "http" then endpoint else BASE_URL +:+ "/" +:+ endpoint).
Proof.
  split; [|reflexivity]. rewrite request_run_from.
  destruct (run_from_bounds meth (request_url endpoint) payload max_retries net
              _ 0 eq_refl) as (_ & _ & Hev).
  exact Hev.
Qed.




(** ** The MCP server: config.py and server.py *)

(** [os.environ.get] *)
Definition environ := string -> option string.

Definition MODEL_DEFAULTS : list (string * string) :=
  [("text", "DEFAULT_TEXT_MODEL"); ("image", "DEFAULT_IMAGE_MODEL");
   ("code", "DEFAULT_CODE_MODEL"); ("vision", "DEFAULT_VISION_MODEL")].

(** [config.get_default_model] *)
Definition get_default_model (env : environ) (category : string) : option string :=
  let env_var := assoc category MODEL_DEFAULTS in
  if negb (truthy env_var) then None else env (default "" env_var).

(** The server raises [ValueError]s of its own and lets the client's
    exceptions through. *)
Inductive server_exn :=
  | ValueError (msg : string)
  | ClientExn (e : exn).

Inductive sresult (A : Type) :=
  | SOk (a : A)
  | SRaise (e : server_exn).
Arguments SOk {A} a.
Arguments SRaise {A} e.

Definition SM (A : Type) : Type := (list event * sresult A)%type.

Definition sret {A} (a : A) : SM A := ([], SOk a).
Definition sthrow {A} (e : server_exn) : SM A := ([], SRaise e).
Definition semit (ev : event) : SM unit := ([ev], SOk tt).
Definition sbind {A B} (m : SM A) (k : A -> SM B) : SM B :=
  match m with
  | (tr, SOk a) => let '(tr', r) := k a in (tr ++ tr', r)
  | (tr, SRaise e) => (tr, SRaise e)
  end.
(** A client call inside a tool. *)
Definition from_client {A} (m : M A) : SM A :=
  (m.1, match m.2 with Ok a => SOk a | Raise e => SRaise (ClientExn e) end).
Definition slift {A} (r : result A) : SM A := from_client (lift r).

Notation "x <~ m ;; k" := (sbind m (fun x => k))
  (at level 100, m at next level, right associativity).
Notation "m ;;~ k" := (sbind m (fun _ => k))
  (at level 100, right associativity).

(** [get_client]: the API key the client is built with (it only enters
    the request headers, which the events leave out). *)
Definition get_client (env : environ) : SM string :=
  let api_key := env "OPENROUTER_API_KEY" in
  if negb (truthy api_key) then
    sthrow (ValueError ("OPENROUTER_API_KEY environment variable not set. "
                        +:+ "Get your key at: https://openrouter.ai/keys"))
  else sret (default "" api_key).

(** [model or get_default_model(category)] *)
Definition resolve_model (env : environ) (model : option string) (category : string)
    : option string :=
  if truthy model then model else get_default_model env category.

Definition no_model_error (var : string) : server_exn :=
  ValueError ("No model specified. Either pass the 'model' parameter or set "
              +:+ var +:+ " environment variable.").

Section ChatTool.

(** Python floats and their JSON encoding. *)
Variable float : Type.
Variable float_json : float -> json.

(** The [kwargs] dict the [chat] tool builds. *)
Definition chat_tool_kwargs (max_tokens : option Z) (temperature : option float)
    (json_mode : bool) : list (string * json) :=
  let kwargs := [] in
  let kwargs := match max_tokens with
                | Some n => dict_set kwargs "max_tokens" (JNum n)
                | None => kwargs
                end in
  let kwargs := match temperature with
                | Some t => dict_set kwargs "temperature" (float_json t)
                | None => kwargs
                end in
  if json_mode
  then dict_set kwargs "response_format" (JObj [("type", JStr "json_object")])
  else kwargs.

(** The [chat] tool. *)
Definition chat_tool (env : environ) (prompt : string) (model system : option string)
    (max_tokens : option Z) (temperature : option float) (json_mode : bool)
    (net : nat -> outcome) : SM json :=
  let resolved_model := resolve_model env model "text" in
  if negb (truthy resolved_model) then sthrow (no_model_error "DEFAULT_TEXT_MODEL")
  else
    _ <~ get_client env ;;
    from_client (chat_simple (default "" resolved_model) prompt system
                   (chat_tool_kwargs max_tokens temperature json_mode) net).

End ChatTool.

(** [Path(s).is_absolute()] on POSIX. *)
Definition is_absolute (s : string) : bool := startswith s "/".

(** The components of [Path(s)] below the root: [split('/')] without the
    empty and ["."] parts. *)
Definition posix_parts (s : string) : path :=
  List.filter (fun c => negb (String.eqb c "") && negb (String.eqb c "."))
    (str_split "/" s).

(** [v.split(sep)[i]] *)
Definition split_nth (sep : ascii) (s : string) (i : nat) : result string :=
  match nth_error (str_split sep s) i with Some d => Ok d | None => Raise IndexError end.

(** A JSON value used as a [str]. *)
Definition str_of (v : json) : result string :=
  match v with JStr s => Ok s | _ => Raise AttributeError end.

(** [fastmcp Image(data=..., format=...)] *)
Record tool_image := { image_data : list Byte.byte; image_format : string }.

Section ImageTool.

Variable resolve : string -> path.
Variable b64decode : string -> string + list Byte.byte.

(** The [generate_image] tool. *)
Definition generate_image_tool (env : environ) (prompt : string) (model : option string)
    (aspect_ratio size : string) (background quality output_format : option string)
    (output_path : option string) (net : nat -> outcome) : SM tool_image :=
  let resolved_model := resolve_model env model "image" in
  if negb (truthy resolved_model) then sthrow (no_model_error "DEFAULT_IMAGE_MODEL")
  else
    _ <~ get_client env ;;
    images <~ from_client (generate_image resolve b64decode (default "" resolved_model)
                             prompt None aspect_ratio size background quality output_format
                             net) ;;
    if negb (json_truthy images) then
      sthrow (ValueError "No image was generated. Try adjusting the prompt or model.")
    else
      data_url <~ slift (rbind (getitem_idx images 0) (fun img =>
                         rbind (getitem_key img "image_url") (fun image_url =>
                         rbind (getitem_key image_url "url") str_of))) ;;
      base64_data <~ slift (split_nth "," data_url 1) ;;
      mime_type <~ slift (rbind (split_nth ";" data_url 0) (fun h => split_nth ":" h 1)) ;;
      img_format <~ slift (split_nth "/" mime_type 1) ;;
      image_data <~ slift (match b64decode base64_data with
                           | inr b => Ok b
                           | inl msg => Raise (BinasciiError msg)
                           end) ;;
      (if truthy output_path then
         let p := default "" output_path in
         if negb (is_absolute p) then
           sthrow (ValueError ("output_path must be an absolute path, got: " +:+ p))
         else
           let target := posix_parts p in
           semit (Mkdir (path_parent target)) ;;~
           semit (Create target) ;;~
           semit (WriteBytes target image_data)
       else sret tt) ;;~
      sret {| image_data := image_data; image_format := img_format |}.

End ImageTool.

(** The entry the [list_models] tool keeps of a model. *)
Definition simplify_listed (m : json) : result json :=
  rbind (getitem_key m "slug") (fun slug =>
  rbind (getitem_key m "name") (fun name =>
  rbind (dict_get m "context_length" JNull) (fun cl =>
  rbind (dict_get m "pricing" (JObj [])) (fun pricing =>
  rbind (dict_get pricing "prompt" JNull) (fun prompt =>
  rbind (dict_get m "pricing" (JObj [])) (fun pricing' =>
  rbind (dict_get pricing' "completion" JNull) (fun completion =>
  Ok (JObj [("slug", slug); ("name", name); ("context_length", cl);
            ("pricing", JObj [("prompt", prompt); ("completion", completion)])])))))))).

(** The [list_models] tool. *)
Definition list_models_tool (env : environ) (capability : option string)
    (net : nat -> outcome) : SM (list json) :=
  _ <~ get_client env ;;
  models <~ from_client (list_models capability net) ;;
  slift (rbind (json_iter models) (map_r simplify_listed)).

(** The [find_models] tool, with its [get_client]. *)
Definition find_models_server (str_lower : string -> string) (env : environ)
    (search_term : string) (net : nat -> outcome) : SM (list json) :=
  _ <~ get_client env ;;
  from_client (find_models_tool str_lower search_term net).

(** ** Chat payloads and the server's preconditions *)

Lemma dict_set_fresh kvs k v :
  k ∉ kvs.*1 -> dict_set kvs k v = kvs ++ [(k, v)].
Proof.
  induction kvs as [|[k' v'] kvs IH]; intros Hk; simpl; [done|].
  destruct (String.eqb_spec k k') as [->|Hne]; [set_solver|].
  rewrite IH; [done|set_solver].
Qed.

Lemma dict_update_fresh kvs upd :
  NoDup upd.*1 -> (forall k, k ∈ upd.*1 -> k ∉ kvs.*1) ->
  dict_update kvs upd = kvs ++ upd.
Proof.
  unfold dict_update. revert kvs.
  induction upd as [|[k v] upd IH]; intros kvs Hnd Hfresh; simpl; [by rewrite app_nil_r|].
  rewrite dict_set_fresh by (apply Hfresh; set_solver).
  simpl in Hnd. apply NoDup_cons in Hnd as [Hk Hnd].
  rewrite IH; [by rewrite <- app_assoc|done|].
  intros k' Hk'. rewrite fmap_app. simpl. apply not_elem_of_app. split.
  - apply Hfresh. set_solver.
  - intros Hin. apply list_elem_of_singleton in Hin as ->. done.
Qed.

(** Python's keyword arguments have distinct names, none of them [model]
    or [messages] (those bind [chat]'s own parameters): the payload of
    [chat] is then [model], [messages] and the keyword arguments in
    their order. *)
Theorem chat_payload_appends_kwargs model messages kwargs :
  NoDup kwargs.*1 -> "model" ∉ kwargs.*1 -> "messages" ∉ kwargs.*1 ->
  chat_payload model messages kwargs
  = [("model", JStr model); ("messages", JList messages)] ++ kwargs.
Proof.
  intros Hnd Hmo Hme. unfold chat_payload. apply dict_update_fresh; [done|].
  intros k Hk. simpl. intros Hin.
  apply elem_of_cons in Hin as [->|Hin]; [done|].
  apply elem_of_cons in Hin as [->|Hin]; [done|set_solver].
Qed.

Lemma chat_tool_kwargs_eq float float_json max_tokens temperature json_mode :
  chat_tool_kwargs float float_json max_tokens temperature json_mode
  = (match max_tokens with Some n => [("max_tokens", JNum n)] | None => [] end)
    ++ (match temperature with Some t => [("temperature", float_json t)] | None => [] end)
    ++ (if json_mode then [("response_format", JObj [("type", JStr "json_object")])] else []).
Proof. by destruct max_tokens, temperature, json_mode. Qed.

Lemma chat_tool_kwargs_keys float float_json max_tokens temperature json_mode :
  let kw := chat_tool_kwargs float float_json max_tokens temperature json_mode in
  NoDup kw.*1 /\ ("model" ∉ kw.*1) /\ ("messages" ∉ kw.*1).
Proof.
  simpl. rewrite chat_tool_kwargs_eq.
  destruct max_tokens, temperature, json_mode; cbn;
    (split; [repeat constructor; set_solver|split; set_solver]).
Qed.

Lemma sbind_from_client_ok {A B} (tr : list event) (a : A) (k : A -> SM B) :
  sbind (tr, SOk a) k = (tr ++ (k a).1, (k a).2).
Proof. unfold sbind. by destruct (k a). Qed.

(** The [chat] tool, once a model is resolved and an API key is set,
    posts one chat completion whose payload is the model, the messages
    (the system prompt first when one is given) and then [max_tokens],
    [temperature] and [response_format] in this order, each present
    exactly when given (a zero [max_tokens] or [temperature] included);
    it returns [choices[0].message.content] of the response. *)
Theorem chat_tool_request float float_json env prompt model system max_tokens temperature
    json_mode net :
  truthy (resolve_model env model "text") = true ->
  truthy (env "OPENROUTER_API_KEY") = true ->
  chat_tool float float_json env prompt model system max_tokens temperature json_mode net
  = from_client
      (body <- request "POST" "chat/completions"
                 (Some (JObj ([("model", JStr (default "" (resolve_model env model "text")));
                               ("messages",
                                JList ((if truthy system
                                        then [message "system" (default "" system)]
                                        else []) ++ [message "user" prompt]))]
                              ++ (match max_tokens with
                                  | Some n => [("max_tokens", JNum n)] | None => [] end)
                              ++ (match temperature with
                                  | Some t => [("temperature", float_json t)] | None => [] end)
                              ++ (if json_mode
                                  then [("response_format", JObj [("type", JStr "json_object")])]
                                  else [])))) 3 net ;;
       lift (choices_content body)).
Proof.
  intros Hm Hk.
  destruct (chat_tool_kwargs_keys float float_json max_tokens temperature json_mode)
    as (Hnd & Hmo & Hme).
  assert (Hpl := dict_update_fresh
                   [("model", JStr (default "" (resolve_model env model "text")));
                    ("messages",
                     JList ((if truthy system then [message "system" (default "" system)]
                             else []) ++ [message "user" prompt]))]
                   _ Hnd).
  rewrite chat_tool_kwargs_eq in Hpl.
  unfold chat_tool. rewrite Hm. simpl.
  unfold get_client. rewrite Hk. simpl.
  unfold chat_simple, chat, chat_payload. rewrite chat_tool_kwargs_eq, Hpl; [reflexivity|].
  rewrite <- chat_tool_kwargs_eq.
  intros k Hk'. simpl. intros Hin.
  apply elem_of_cons in Hin as [->|Hin]; [done|].
  apply elem_of_cons in Hin as [->|Hin]; [done|set_solver].
Qed.

(** The tools check their preconditions before any request: [chat] and
    [generate_image] first need a model (the argument, else the default
    of the environment), then every tool needs a non-empty
    OPENROUTER_API_KEY; each failure is a [ValueError] raised with no
    request sent and no file touched. *)
Theorem tools_check_preconditions_first float float_json resolve b64decode env prompt model
    system max_tokens temperature json_mode aspect_ratio size background quality
    output_format output_path capability str_lower search_term net :
  (truthy (resolve_model env model "text") = false ->
   chat_tool float float_json env prompt model system max_tokens temperature json_mode net
   = ([], SRaise (no_model_error "DEFAULT_TEXT_MODEL")))
  /\ (truthy (resolve_model env model "image") = false ->
      generate_image_tool resolve b64decode env prompt model aspect_ratio size background
        quality output_format output_path net
      = ([], SRaise (no_model_error "DEFAULT_IMAGE_MODEL")))
  /\ (truthy (env "OPENROUTER_API_KEY") = false ->
      let key_error := ValueError ("OPENROUTER_API_KEY environment variable not set. "
                                   +:+ "Get your key at: https://openrouter.ai/keys") in
      (truthy (resolve_model env model "text") = true ->
       chat_tool float float_json env prompt model system max_tokens temperature json_mode net
       = ([], SRaise key_error))
      /\ (truthy (resolve_model env model "image") = true ->
          generate_image_tool resolve b64decode env prompt model aspect_ratio size background
            quality output_format output_path net
          = ([], SRaise key_error))
      /\ list_models_tool env capability net = ([], SRaise key_error)
      /\ find_models_server str_lower env search_term net = ([], SRaise key_error)).
Proof.
  split; [|split].
  - intros Hm. unfold chat_tool. by rewrite Hm.
  - intros Hm. unfold generate_image_tool. by rewrite Hm.
  - intros Hk key_error. unfold chat_tool, generate_image_tool, list_models_tool,
      find_models_server, get_client. rewrite Hk.
    split; [intros Hm; by rewrite Hm|]. split; [intros Hm; by rewrite Hm|]. done.
Qed.

(** A model argument is used when it is a non-empty string; [None] and
    the empty string both fall back to DEFAULT_TEXT_MODEL (chat) or
    DEFAULT_IMAGE_MODEL (images). A category outside text, image, code
    and vision has no default, whatever the environment holds. *)
Theorem resolve_model_fallback env model category :
  (forall m, model = Some m -> m <> "" -> resolve_model env model category = Some m)
  /\ (model = None \/ model = Some "" ->
      resolve_model env model "text" = env "DEFAULT_TEXT_MODEL"
      /\ resolve_model env model "image" = env "DEFAULT_IMAGE_MODEL")
  /\ (category ∉ ["text"; "image"; "code"; "vision"] ->
      get_default_model env category = None).
Proof.
  split; [|split].
  - intros m -> Hm. unfold resolve_model. simpl.
    apply String.eqb_neq in Hm. by rewrite Hm.
  - intros [-> | ->]; split; reflexivity.
  - intros Hc. unfold get_default_model. simpl.
    destruct (String.eqb_spec category "text"); [subst; set_solver|].
    destruct (String.eqb_spec category "image"); [subst; set_solver|].
    destruct (String.eqb_spec category "code"); [subst; set_solver|].
    destruct (String.eqb_spec category "vision"); [subst; set_solver|].
    reflexivity.
Qed.

(** ** The [generate_image] tool *)

Lemma str_split_app_nosep sep a s :
  sep ∉ list_ascii_of_string a ->
  str_split sep (a +:+ s)
  = match str_split sep s with r :: rs => (a +:+ r) :: rs | [] => [a] end.
Proof.
  intros Ha. induction a as [|c a IH].
  - pose proof (str_split_nonempty sep s).
    destruct (str_split sep s) eqn:E; [done|]. change ("" +:+ s) with s. by rewrite E.
  - rewrite append_String. simpl in Ha |- *.
    assert (Hc : Ascii.eqb c sep = false)
      by (apply Ascii.eqb_neq; intros ->; set_solver).
    rewrite Hc, IH by set_solver.
    pose proof (str_split_nonempty sep s). by destruct (str_split sep s).
Qed.

Lemma str_split_nosep sep s :
  sep ∉ list_ascii_of_string s -> str_split sep s = [s].
Proof.
  intros Hs. rewrite <- (append_empty_r s) at 1.
  rewrite str_split_app_nosep by done. simpl. by rewrite append_empty_r.
Qed.

Lemma str_split_sep sep s : str_split sep (String sep s) = "" :: str_split sep s.
Proof. simpl. by rewrite Ascii.eqb_refl. Qed.

(** No character of the data-URL syntax ([,], [;], [:], [/]) occurs. *)
Definition plain_token (s : string) : bool :=
  forallb (fun c => negb (existsb (Ascii.eqb c) [","; ";"; ":"; "/"]%char))
    (list_ascii_of_string s).
Definition comma_free (s : string) : bool :=
  forallb (fun c => negb (Ascii.eqb c ",")) (list_ascii_of_string s).

Lemma plain_token_spec s c :
  plain_token s = true -> c ∈ [","; ";"; ":"; "/"]%char -> c ∉ list_ascii_of_string s.
Proof.
  unfold plain_token. rewrite forallb_forall. intros Hs Hc Hin.
  apply list_elem_of_In in Hin. specialize (Hs c Hin).
  apply negb_true_iff in Hs.
  enough (existsb (Ascii.eqb c) [","; ";"; ":"; "/"]%char = true) by congruence.
  apply existsb_exists.
  exists c. split; [by apply list_elem_of_In|apply Ascii.eqb_refl].
Qed.

Lemma comma_free_spec s : comma_free s = true -> ","%char ∉ list_ascii_of_string s.
Proof.
  unfold comma_free. rewrite forallb_forall. intros Hs Hin.
  apply list_elem_of_In in Hin. specialize (Hs _ Hin). by rewrite Ascii.eqb_refl in Hs.
Qed.

Ltac no_sep :=
  repeat rewrite las_app; repeat (apply not_elem_of_app; split);
  first [ apply (bool_decide_unpack _); vm_compute; reflexivity
        | apply plain_token_spec; [assumption|set_solver]
        | apply comma_free_spec; assumption ].

(** The pieces the tool cuts out of [data:<type>/<sub>;base64,<payload>]. *)
Lemma data_url_pieces typ sub payload :
  plain_token typ = true -> plain_token sub = true -> comma_free payload = true ->
  let u := "data:" +:+ typ +:+ "/" +:+ sub +:+ ";base64," +:+ payload in
  split_nth "," u 1 = Ok payload
  /\ rbind (split_nth ";" u 0) (fun h => split_nth ":" h 1) = Ok (typ +:+ "/" +:+ sub)
  /\ split_nth "/" (typ +:+ "/" +:+ sub) 1 = Ok sub.
Proof.
  intros Ht Hs Hp u. subst u. split; [|split].
  - unfold split_nth.
    rewrite (str_split_app_nosep "," "data:"), (str_split_app_nosep "," typ),
      (str_split_app_nosep "," "/"), (str_split_app_nosep "," sub) by no_sep.
    change (";base64," +:+ payload) with (";base64" +:+ String "," payload).
    rewrite (str_split_app_nosep "," ";base64") by no_sep.
    rewrite str_split_sep, (str_split_nosep "," payload) by no_sep. reflexivity.
  - unfold split_nth.
    rewrite (str_split_app_nosep ";" "data:"), (str_split_app_nosep ";" typ),
      (str_split_app_nosep ";" "/"), (str_split_app_nosep ";" sub) by no_sep.
    change (";base64," +:+ payload) with (String ";" ("base64," +:+ payload)).
    rewrite str_split_sep. simpl.
    change ("" +:+ (typ +:+ ("/" +:+ (sub +:+ "")))) with (typ +:+ ("/" +:+ (sub +:+ ""))).
    rewrite append_empty_r, (str_split_nosep ":") by no_sep.
    reflexivity.
  - unfold split_nth. rewrite (str_split_app_nosep "/" typ) by no_sep.
    change ("/" +:+ sub) with (String "/" sub).
    rewrite str_split_sep, (str_split_nosep "/" sub) by no_sep. reflexivity.
Qed.

Lemma generate_image_no_output resolve b64decode model prompt aspect_ratio size background
    quality output_format net tr body images :
  request "POST" "chat/completions"
    (Some (JObj (image_payload model prompt aspect_ratio size
                   background quality output_format))) 3 net = (tr, Ok body) ->
  message_images body = Ok images ->
  generate_image resolve b64decode model prompt None aspect_ratio size background quality
    output_format net = (tr, Ok images).
Proof.
  intros Hreq Himgs. unfold generate_image. rewrite Hreq. simpl. rewrite Himgs. simpl.
  by rewrite !app_nil_r.
Qed.

(** The [generate_image] tool asks the client for images without an
    output path, so the client writes nothing; from a response whose first
    image is [data:<type>/<sub>;base64,<payload>] it returns the decoded
    first image with format [<sub>], whatever the number of images. With an
    absolute [output_path] it creates the parent directory and writes that
    one image to exactly [Path(output_path)] (not resolved, no numbered
    names); a non-empty relative [output_path] raises a [ValueError] after
    the request, with nothing written. *)
Theorem image_tool_single_file resolve b64decode env prompt model aspect_ratio size background
    quality output_format output_path net tr body img rest iu typ sub payload bytes :
  truthy (resolve_model env model "image") = true ->
  truthy (env "OPENROUTER_API_KEY") = true ->
  request "POST" "chat/completions"
    (Some (JObj (image_payload (default "" (resolve_model env model "image")) prompt
                   aspect_ratio size background quality output_format))) 3 net
  = (tr, Ok body) ->
  message_images body = Ok (JList (img :: rest)) ->
  getitem_key img "image_url" = Ok iu ->
  getitem_key iu "url" = Ok (JStr ("data:" +:+ typ +:+ "/" +:+ sub +:+ ";base64," +:+ payload)) ->
  plain_token typ = true -> plain_token sub = true -> comma_free payload = true ->
  b64decode payload = inr bytes ->
  let res := generate_image_tool resolve b64decode env prompt model aspect_ratio size
               background quality output_format output_path net in
  let image := {| image_data := bytes; image_format := sub |} in
  ((output_path = None \/ output_path = Some "") -> res = (tr, SOk image))
  /\ (forall p, output_path = Some p -> is_absolute p = true ->
      res = (tr ++ [Mkdir (path_parent (posix_parts p)); Create (posix_parts p);
                    WriteBytes (posix_parts p) bytes], SOk image))
  /\ (forall p, output_path = Some p -> p <> "" -> is_absolute p = false ->
      res = (tr, SRaise (ValueError ("output_path must be an absolute path, got: " +:+ p)))).
Proof.
  intros Hm Hk Hreq Himgs Hiu Hu Ht Hs Hp Hdec res image.
  destruct (data_url_pieces typ sub payload Ht Hs Hp) as (P1 & P2 & P3).
  assert (Hres : res =
    (let '(tr', r) :=
       ((if truthy output_path
         then if negb (is_absolute (default "" output_path))
              then sthrow (ValueError ("output_path must be an absolute path, got: "
                                       +:+ default "" output_path))
              else ([Mkdir (path_parent (posix_parts (default "" output_path)));
                     Create (posix_parts (default "" output_path));
                     WriteBytes (posix_parts (default "" output_path)) bytes], SOk tt)
         else sret tt) ;;~ sret image) in (tr ++ tr', r))).
  { subst res image. unfold generate_image_tool. rewrite Hm. cbn [negb].
    unfold get_client. rewrite Hk. cbn [negb].
    rewrite (generate_image_no_output _ _ _ _ _ _ _ _ _ _ _ _ _ Hreq Himgs).
    cbn -[getitem_key split_nth str_split].
    rewrite Hiu. cbn -[getitem_key split_nth str_split].
    rewrite Hu. cbn -[getitem_key split_nth str_split].
    rewrite P1. cbn -[getitem_key split_nth str_split].
    rewrite P2. cbn -[getitem_key split_nth str_split].
    rewrite P3. cbn -[getitem_key split_nth str_split].
    rewrite Hdec. cbn -[getitem_key split_nth str_split].
    destruct (_ ;;~ _); reflexivity. }
  rewrite Hres. clear Hres. split; [|split].
  - intros [-> | ->]; simpl; by rewrite ?app_nil_r.
  - intros p -> Habs. destruct p as [|c p]; [discriminate|].
    cbn -[is_absolute posix_parts]. rewrite Habs. cbn -[posix_parts]. by rewrite ?app_nil_r.
  - intros p -> Hne Habs. destruct p as [|c p]; [done|].
    cbn -[is_absolute posix_parts]. rewrite Habs. cbn -[posix_parts]. by rewrite ?app_nil_r.
Qed.

(** The [generate_image] tool raises a [ValueError] after the request
    when the response holds no image (an empty or missing [images] list),
    and writes nothing. *)
Theorem image_tool_no_image resolve b64decode env prompt model aspect_ratio size background
    quality output_format output_path net tr body images :
  truthy (resolve_model env model "image") = true ->
  truthy (env "OPENROUTER_API_KEY") = true ->
  request "POST" "chat/completions"
    (Some (JObj (image_payload (default "" (resolve_model env model "image")) prompt
                   aspect_ratio size background quality output_format))) 3 net
  = (tr, Ok body) ->
  message_images body = Ok images ->
  json_truthy images = false ->
  generate_image_tool resolve b64decode env prompt model aspect_ratio size background quality
    output_format output_path net
  = (tr, SRaise (ValueError "No image was generated. Try adjusting the prompt or model.")).
Proof.
  intros Hm Hk Hreq Himgs Hempty. unfold generate_image_tool. rewrite Hm. cbn [negb].
  unfold get_client. rewrite Hk. cbn [negb].
  rewrite (generate_image_no_output _ _ _ _ _ _ _ _ _ _ _ _ _ Hreq Himgs).
  cbn -[json_truthy]. rewrite Hempty. simpl. by rewrite app_nil_r.
Qed.

(** ** [generate_image]: a malformed image entry *)




(** ** The model catalog: edge cases *)

Lemma filter_r_sublist p l l' :
  filter_r p l = Ok l' -> l' `sublist_of` l.
Proof.
  revert l'. induction l as [|m l IH]; intros l' H; simpl in H.
  - injection H as <-. constructor.
  - destruct (p m) as [b|e]; simpl in H; [|discriminate].
    destruct (filter_r p l) as [kept|e] eqn:E; simpl in H; [|discriminate].
    injection H as <-. destruct b.
    + apply sublist_skip, IH. done.
    + apply sublist_cons, IH. done.
Qed.

Lemma filter_r_all p l :
  (forall m, m ∈ l -> p m = Ok true) -> filter_r p l = Ok l.
Proof.
  induction l as [|m l IH]; intros Hall; simpl; [done|].
  rewrite Hall by set_solver. simpl. rewrite IH by set_solver. done.
Qed.

Lemma filter_r_raise p l e :
  (forall m, m ∈ l -> p m = Raise e \/ exists b, p m = Ok b) ->
  (exists m, m ∈ l /\ p m = Raise e) ->
  filter_r p l = Raise e.
Proof.
  induction l as [|m l IH]; intros Hall (m' & Hin & Hm').
  - set_solver.
  - simpl. destruct (Hall m ltac:(set_solver)) as [Hr|[b Hb]].
    + by rewrite Hr.
    + rewrite Hb. simpl. rewrite IH; [done|set_solver|].
      exists m'. split; [|done].
      apply elem_of_cons in Hin as [->|Hin]; [congruence|done].
Qed.

Lemma capability_filter_sublist capability l v :
  capability_filter capability (JList l) = Ok v ->
  exists l', v = JList l' /\ l' `sublist_of` l.
Proof.
  assert (Hf : forall p, filter_models p (JList l) = Ok v ->
                 exists l', v = JList l' /\ l' `sublist_of` l).
  { intros p. unfold filter_models. simpl.
    destruct (filter_r p l) as [kept|e] eqn:E; simpl; [|discriminate].
    intros H. injection H as <-. exists kept. split; [done|].
    by apply (filter_r_sublist p). }
  unfold capability_filter.
  destruct (truthy capability); [|intros H; injection H as <-; by exists l].
  repeat match goal with
         | |- context [if String.eqb ?a ?b then _ else _] => destruct (String.eqb a b)
         end; try apply Hf.
  intros H. injection H as <-. by exists l.
Qed.

Lemma list_models_list capability net tr body l :
  request "GET" FRONTEND_MODELS_URL None 3 net = (tr, Ok body) ->
  dict_get body "data" (JList []) = Ok (JList l) ->
  list_models capability net = (tr, capability_filter capability (JList l)).
Proof.
  intros Hreq Hdata. unfold list_models.
  rewrite (bind_ok _ _ _ _ Hreq), Hdata. simpl. by rewrite !app_nil_r.
Qed.

Lemma find_model_list str_lower search_term net tr body l :
  request "GET" FRONTEND_MODELS_URL None 3 net = (tr, Ok body) ->
  dict_get body "data" (JList []) = Ok (JList l) ->
  find_model str_lower search_term net = (tr, filter_r (slug_or_name_matches str_lower (str_lower search_term)) l).
Proof.
  intros Hreq Hdata. unfold find_model.
  rewrite (bind_ok _ _ _ _ (list_models_list None net tr body l Hreq Hdata)).
  simpl. by rewrite !app_nil_r.
Qed.

(** [list_models] never invents or reorders models: when the catalog's
    ["data"] is a list, a successful result, whatever the capability, is a
    list obtained from it by dropping entries. *)
Theorem list_models_result_sublist capability net tr body l v :
  request "GET" FRONTEND_MODELS_URL None 3 net = (tr, Ok body) ->
  dict_get body "data" (JList []) = Ok (JList l) ->
  (list_models capability net).2 = Ok v ->
  exists l', v = JList l' /\ l' `sublist_of` l.
Proof.
  intros Hreq Hdata. rewrite (list_models_list capability net tr body l Hreq Hdata).
  apply capability_filter_sublist.
Qed.

(** A catalog response that is a JSON object without a ["data"] key gives
    an empty model list, whatever the capability; a response that is not
    an object makes [list_models] raise [AttributeError] (from [.get]). *)
Theorem list_models_missing_data capability net tr body :
  request "GET" FRONTEND_MODELS_URL None 3 net = (tr, Ok body) ->
  (forall kvs, body = JObj kvs -> assoc "data" kvs = None ->
     list_models capability net = (tr, Ok (JList [])))
  /\ ((forall kvs, body <> JObj kvs) ->
      list_models capability net = (tr, Raise AttributeError)).
Proof.
  intros Hreq. split.
  - intros kvs -> Hd. unfold list_models. rewrite (bind_ok _ _ _ _ Hreq). simpl.
    rewrite Hd. simpl. rewrite !app_nil_r. f_equal.
    unfold capability_filter. destruct (truthy capability); [|done].
    repeat match goal with
           | |- context [if String.eqb ?a ?b then _ else _] => destruct (String.eqb a b)
           end; done.
  - intros Hno. unfold list_models. rewrite (bind_ok _ _ _ _ Hreq).
    destruct body; try (exfalso; by eapply Hno); simpl; by rewrite !app_nil_r.
Qed.

(** With the ["long_context"] filter, on a catalog of JSON objects, one
    model whose ["context_length"] is present but neither a number nor a
    boolean (a string or [null], say) makes [list_models] raise
    [TypeError] from the comparison [>= 100000]. *)
Theorem long_context_type_error net tr body l :
  request "GET" FRONTEND_MODELS_URL None 3 net = (tr, Ok body) ->
  dict_get body "data" (JList []) = Ok (JList l) ->
  (forall m, m ∈ l -> exists kvs, m = JObj kvs) ->
  (exists kvs v, JObj kvs ∈ l /\ assoc "context_length" kvs = Some v
                 /\ (forall z, v <> JNum z) /\ (forall b, v <> JBool b)) ->
  list_models (Some "long_context") net = (tr, Raise TypeError).
Proof.
  intros Hreq Hdata Hobj (kvs & v & Hin & Hv & Hnz & Hnb).
  rewrite (list_models_list _ net tr body l Hreq Hdata). f_equal.
  unfold capability_filter, filter_models. simpl.
  rewrite (filter_r_raise _ l TypeError); [done| |].
  - intros m Hm. destruct (Hobj m Hm) as [kvs' ->]. simpl.
    destruct (assoc "context_length" kvs') as [[]|]; simpl; eauto.
  - exists (JObj kvs). split; [done|]. simpl. rewrite Hv. simpl.
    destruct v; try reflexivity; [by destruct (Hnb b)|by destruct (Hnz z)].
Qed.

Lemma str_contains_startswith needle hay :
  startswith hay needle = true -> str_contains needle hay = true.
Proof. destruct hay; simpl; intros ->; done. Qed.

Lemma startswith_empty s : startswith s "" = true.
Proof. by destruct s. Qed.

(** [find_model] keeps every model whose slug (a string), lowered by
    [str.lower()], contains the search term lowered by [str.lower()], and
    it does not look at the name of such a model, which may be missing or
    not a string. *)
Theorem find_model_slug_match_keeps str_lower search_term net tr body l :
  request "GET" FRONTEND_MODELS_URL None 3 net = (tr, Ok body) ->
  dict_get body "data" (JList []) = Ok (JList l) ->
  (forall m, m ∈ l -> exists slug,
     getitem_key m "slug" = Ok (JStr slug) /\ ci_contains str_lower search_term slug) ->
  find_model str_lower search_term net = (tr, Ok l).
Proof.
  intros Hreq Hdata Hall. rewrite (find_model_list str_lower search_term net tr body l Hreq Hdata).
  f_equal. apply filter_r_all. intros m Hm.
  destruct (Hall m Hm) as (slug & Hs & Hc). unfold slug_or_name_matches.
  rewrite Hs. simpl. unfold ci_contains in Hc. by rewrite Hc.
Qed.

(** An empty search term matches everything: [find_model ""] returns the
    whole catalog when every model has a string slug ([str.lower()] maps
    the empty string to itself). *)
Theorem find_model_empty_term str_lower net tr body l :
  str_lower "" = "" ->
  request "GET" FRONTEND_MODELS_URL None 3 net = (tr, Ok body) ->
  dict_get body "data" (JList []) = Ok (JList l) ->
  (forall m, m ∈ l -> exists slug, getitem_key m "slug" = Ok (JStr slug)) ->
  find_model str_lower "" net = (tr, Ok l).
Proof.
  intros Hempty Hreq Hdata Hall. rewrite (find_model_list str_lower "" net tr body l Hreq Hdata).
  f_equal. apply filter_r_all. intros m Hm.
  destruct (Hall m Hm) as (slug & Hs). unfold slug_or_name_matches.
  rewrite Hs. simpl. rewrite Hempty.
  by rewrite str_contains_startswith by apply startswith_empty.
Qed.

(** On a catalog of JSON objects whose slugs and names, where present,
    are strings, one model without a ["slug"] key makes [find_model]
    raise [KeyError], whatever the search term. *)
Theorem find_model_missing_slug str_lower search_term net tr body l :
  request "GET" FRONTEND_MODELS_URL None 3 net = (tr, Ok body) ->
  dict_get body "data" (JList []) = Ok (JList l) ->
  (forall m, m ∈ l -> exists kvs, m = JObj kvs
     /\ (forall v, assoc "slug" kvs = Some v -> exists s, v = JStr s)
     /\ (forall v, assoc "name" kvs = Some v -> exists s, v = JStr s)) ->
  (exists kvs, JObj kvs ∈ l /\ assoc "slug" kvs = None) ->
  find_model str_lower search_term net = (tr, Raise KeyError).
Proof.
  intros Hreq Hdata Hall (kvs & Hin & Hs). rewrite (find_model_list str_lower search_term net tr body l Hreq Hdata).
  f_equal. apply filter_r_raise.
  - intros m Hm. destruct (Hall m Hm) as (kvs' & -> & Hslug & Hname).
    unfold slug_or_name_matches. simpl.
    destruct (assoc "slug" kvs') as [v|] eqn:E; simpl; [|by left].
    destruct (Hslug v eq_refl) as [s ->]. simpl.
    destruct (str_contains _ _); [eauto|]. simpl.
    destruct (assoc "name" kvs') as [w|] eqn:F; simpl; [|by left].
    destruct (Hname w eq_refl) as [t ->]. simpl. eauto.
  - exists (JObj kvs). split; [done|]. unfold slug_or_name_matches. simpl. by rewrite Hs.
Qed.

(** ** The server's [list_models] and [find_models] tools *)

(** The entry the [list_models] tool makes of a model descriptor. *)
Definition listed_entry (d : model_descr) : json :=
  JObj [("slug", JStr (d_slug d)); ("name", JStr (d_name d));
        ("context_length", JNum (d_context_length d));
        ("pricing", JObj [("prompt", default JNull (assoc "prompt" (d_pricing d)));
                          ("completion", default JNull (assoc "completion" (d_pricing d)))])].


Lemma map_r_map (f : json -> result json) (g : model_descr -> json) (h : model_descr -> json) ds :
  (forall d, f (g d) = Ok (h d)) -> map_r f (map g ds) = Ok (map h ds).
Proof.
  intros Hf. induction ds as [|d ds IH]; simpl; [done|]. by rewrite Hf, IH.
Qed.

(** The [list_models] tool returns, for each model the client returns and
    in the same order, its slug, name, context length and the [prompt] and
    [completion] prices, a price missing from the model's pricing being
    [null]. *)
Theorem list_models_tool_entries env capability net tr ds :
  truthy (env "OPENROUTER_API_KEY") = true ->
  list_models capability net = (tr, Ok (JList (map descr_json ds))) ->
  list_models_tool env capability net = (tr, SOk (map listed_entry ds)).
Proof.
  intros Hk Hl. unfold list_models_tool, get_client. rewrite Hk, Hl. simpl.
  rewrite (map_r_map _ _ listed_entry); [by rewrite !app_nil_r|].
  intros d. unfold simplify_listed. simpl.
  unfold listed_entry.
  destruct (assoc "prompt" (d_pricing d)); destruct (assoc "completion" (d_pricing d));
    reflexivity.
Qed.


(** ** Names of the numbered image files *)

Lemma rfind_dot_go_app l1 l2 i acc :
  rfind_dot_go (l1 ++ l2) i acc = rfind_dot_go l2 (i + length l1) (rfind_dot_go l1 i acc).
Proof.
  revert i acc. induction l1 as [|c l1 IH]; intros i acc; simpl.
  - by rewrite Nat.add_0_r.
  - rewrite IH. by rewrite Nat.add_succ_r.
Qed.

Lemma rfind_dot_go_nodot l i acc :
  ("."%char) ∉ l -> rfind_dot_go l i acc = acc.
Proof.
  revert i acc. induction l as [|c l IH]; intros i acc Hl; simpl; [done|].
  assert (Hc : Ascii.eqb c "." = false) by (apply Ascii.eqb_neq; intros ->; set_solver).
  rewrite Hc. apply IH. set_solver.
Qed.

Lemma las_length_pos (s : string) : s <> "" -> (0 < length (list_ascii_of_string s))%nat.
Proof. destruct s; simpl; [done|lia]. Qed.

Lemma image_target_named (parent : path) (name : string) count idx :
  count <> 1%nat ->
  image_target (parent ++ [name]) count idx
  = parent ++ [(stem_suffix name).1 +:+ "_" +:+ pretty idx +:+ (stem_suffix name).2].
Proof.
  intros Hc. unfold image_target. rewrite (proj2 (Nat.eqb_neq _ _) Hc).
  unfold path_name, path_parent. rewrite last_last, removelast_last.
  by destruct (stem_suffix name).
Qed.

(** With two or more images, the numbered file for index [idx] follows
    [PurePath]'s stem and suffix: [photo.png] gives [photo_<idx>.png]
    (the number goes before the last extension), a name with no dot gets
    [_<idx>] appended, and so does a dot file such as [.env], whose
    leading dot does not start a suffix. *)
Theorem image_target_numbered_name (parent : path) s ext count idx :
  count <> 1%nat ->
  ("."%char) ∉ list_ascii_of_string ext ->
  (s <> "" -> ext <> "" ->
   image_target (parent ++ [s +:+ "." +:+ ext]) count idx
   = parent ++ [s +:+ "_" +:+ pretty idx +:+ "." +:+ ext])
  /\ (image_target (parent ++ [ext]) count idx = parent ++ [ext +:+ "_" +:+ pretty idx])
  /\ (ext <> "" ->
      image_target (parent ++ ["." +:+ ext]) count idx
      = parent ++ ["." +:+ ext +:+ "_" +:+ pretty idx]).
Proof.
  intros Hc Hext. rewrite !image_target_named by done.
  split; [|split].
  - intros Hs He. unfold stem_suffix.
    rewrite !las_app. simpl (list_ascii_of_string ("." +:+ ext)).
    change (list_ascii_of_string ".") with ["."%char].
    change (["."%char] ++ list_ascii_of_string ext) with ("."%char :: list_ascii_of_string ext).
    rewrite rfind_dot_go_app. cbn [rfind_dot_go].
    change (Ascii.eqb "." ".") with true. cbv iota.
    rewrite rfind_dot_go_nodot by done. rewrite Nat.add_0_l.
    apply las_length_pos in Hs, He.
    rewrite bool_decide_eq_true_2
      by (rewrite length_app; simpl; lia).
    rewrite take_app_length, drop_app_length, !string_of_list_ascii_of_string.
    cbn [string_of_list_ascii fst snd]. rewrite string_of_list_ascii_of_string.
    reflexivity.
  - unfold stem_suffix. rewrite rfind_dot_go_nodot by done. simpl.
    by rewrite append_empty_r.
  - intros He. unfold stem_suffix. simpl (list_ascii_of_string ("." +:+ ext)).
    simpl. rewrite rfind_dot_go_nodot by done.
    rewrite bool_decide_eq_false_2 by lia. simpl.
    by rewrite append_empty_r.
Qed.

(** ** Sample inputs for the further properties *)

(** A chat completion, and a response to an image request without images. *)
Definition sample_chat_body : json :=
  JObj [("choices", JList [JObj [("message", JObj [("content", JStr "hello")])]])].
Definition sample_no_image_body : json :=
  JObj [("choices", JList [JObj [("message",
    JObj [("role", JStr "assistant"); ("content", JStr "sorry")])]])].

(** A timeout, then a 503, then a completion. *)
Definition net_flaky (a : nat) : outcome :=
  match a with
  | 0%nat => Timeout
  | 1%nat => RespErr 503 None "busy"
  | _ => Resp200 sample_chat_body
  end.

(** An environment with a key and default text and image models. *)
Definition sample_env (k : string) : option string :=
  if String.eqb k "OPENROUTER_API_KEY" then Some "sk-or-test"
  else if String.eqb k "DEFAULT_TEXT_MODEL" then Some "text-model"
  else if String.eqb k "DEFAULT_IMAGE_MODEL" then Some "img-model"
  else None.



Definition sample_image_request : list event :=
  [Send "POST" (request_url "chat/completions")
     (Some (JObj (image_payload "img-model" "a cat" "1:1" "1K" None None None)))].

Definition sample_catalog_request : list event :=
  [Send "GET" (request_url FRONTEND_MODELS_URL) None].

(** ** Witnesses of the further properties *)

Lemma request_ok_from_200_witness :
  (request "POST" "chat/completions" None 3 net_flaky).2 = Ok sample_chat_body
  /\ exists a, (a < Z.to_nat 3)%nat /\ net_flaky a = Resp200 sample_chat_body.
Proof.
  split; [reflexivity|].
  apply (request_ok_from_200 "POST" "chat/completions" None 3 net_flaky sample_chat_body).
  reflexivity.
Defined.






Lemma chat_payload_appends_kwargs_witness :
  chat_payload "m" [message "user" "hi"] [("temperature", JNum 0); ("max_tokens", JNum 5)]
  = [("model", JStr "m"); ("messages", JList [message "user" "hi"])]
    ++ [("temperature", JNum 0); ("max_tokens", JNum 5)].
Proof.
  apply chat_payload_appends_kwargs;
    apply (bool_decide_unpack _); vm_compute; reflexivity.
Defined.

Lemma chat_tool_request_witness :
  truthy (resolve_model sample_env None "text") = true
  /\ chat_tool Z JNum sample_env "hi" None None (Some 64) None true net_flaky
     = from_client
         (body <- request "POST" "chat/completions"
                    (Some (JObj ([("model", JStr (default "" (resolve_model sample_env None "text")));
                                  ("messages",
                                   JList ((if truthy None
                                           then [message "system" (default "" None)]
                                           else []) ++ [message "user" "hi"]))]
                                 ++ [("max_tokens", JNum 64)]
                                 ++ []
                                 ++ [("response_format", JObj [("type", JStr "json_object")])])))
                    3 net_flaky ;;
          lift (choices_content body)).
Proof.
  split; [reflexivity|].
  apply (chat_tool_request Z JNum sample_env "hi" None None (Some 64) None true net_flaky);
    reflexivity.
Defined.

Lemma image_tool_single_file_witness :
  generate_image_tool sample_resolve sample_b64decode sample_env "a cat" None "1:1" "1K"
    None None None (Some "/tmp/cat.png") (fun _ => Resp200 sample_image_body)
  = (sample_image_request ++ [Mkdir (path_parent (posix_parts "/tmp/cat.png"));
                              Create (posix_parts "/tmp/cat.png");
                              WriteBytes (posix_parts "/tmp/cat.png") [Byte.x00; Byte.x00; Byte.x00]],
     SOk {| image_data := [Byte.x00; Byte.x00; Byte.x00]; image_format := "png" |}).
Proof.
  refine (proj1 (proj2 (image_tool_single_file sample_resolve sample_b64decode sample_env
            "a cat" None "1:1" "1K" None None None (Some "/tmp/cat.png")
            (fun _ => Resp200 sample_image_body) sample_image_request sample_image_body
            sample_image [sample_image] (JObj [("url", JStr "data:image/png;base64,AAAA")])
            "image" "png" "AAAA" [Byte.x00; Byte.x00; Byte.x00]
            _ _ _ _ _ _ _ _ _ _)) "/tmp/cat.png" eq_refl _);
    reflexivity.
Defined.

Lemma image_tool_no_image_witness :
  generate_image_tool sample_resolve sample_b64decode sample_env "a cat" None "1:1" "1K"
    None None None None (fun _ => Resp200 sample_no_image_body)
  = ([Send "POST" (request_url "chat/completions")
        (Some (JObj (image_payload "img-model" "a cat" "1:1" "1K" None None None)))],
     SRaise (ValueError "No image was generated. Try adjusting the prompt or model.")).
Proof.
  apply (image_tool_no_image sample_resolve sample_b64decode sample_env "a cat" None "1:1"
           "1K" None None None None (fun _ => Resp200 sample_no_image_body)
           [Send "POST" (request_url "chat/completions")
              (Some (JObj (image_payload "img-model" "a cat" "1:1" "1K" None None None)))]
           sample_no_image_body (JList [])); reflexivity.
Defined.


Lemma list_models_result_sublist_witness :
  exists l', JList [descr_json sample_vision] = JList l'
             /\ l' `sublist_of` map descr_json [sample_vision; sample_text].
Proof.
  apply (list_models_result_sublist (Some "vision") (fun _ => Resp200 sample_catalog_body)
           sample_catalog_request sample_catalog_body (map descr_json [sample_vision; sample_text]));
    reflexivity.
Defined.

Lemma list_models_missing_data_witness :
  list_models (Some "tools") (fun _ => Resp200 (JObj [("object", JStr "list")]))
  = (sample_catalog_request, Ok (JList [])).
Proof.
  apply (proj1 (list_models_missing_data (Some "tools")
                  (fun _ => Resp200 (JObj [("object", JStr "list")]))
                  sample_catalog_request (JObj [("object", JStr "list")]) eq_refl)
           [("object", JStr "list")]); reflexivity.
Defined.

Definition sample_odd_model : json :=
  JObj [("slug", JStr "acme/odd"); ("context_length", JStr "128k")].
Definition sample_odd_catalog_body : json :=
  JObj [("data", JList [descr_json sample_vision; sample_odd_model])].

Lemma long_context_type_error_witness :
  list_models (Some "long_context") (fun _ => Resp200 sample_odd_catalog_body)
  = (sample_catalog_request, Raise TypeError).
Proof.
  apply (long_context_type_error (fun _ => Resp200 sample_odd_catalog_body)
           sample_catalog_request sample_odd_catalog_body
           [descr_json sample_vision; sample_odd_model]).
  - reflexivity.
  - reflexivity.
  - intros m Hm. apply list_elem_of_In in Hm. destruct Hm as [<-|[<-|[]]]; eexists; reflexivity.
  - exists [("slug", JStr "acme/odd"); ("context_length", JStr "128k")], (JStr "128k").
    split; [apply list_elem_of_In; simpl; auto|]. split; [reflexivity|].
    split; intros ? ?; discriminate.
Defined.

(** A catalog whose second model has no name. *)
Definition sample_unnamed_catalog_body : json :=
  JObj [("data", JList [descr_json sample_vision; JObj [("slug", JStr "openai/gpt-4o-mini")]])].

Lemma find_model_slug_match_keeps_witness :
  find_model ascii_str_lower "GPT" (fun _ => Resp200 sample_unnamed_catalog_body)
  = (sample_catalog_request,
     Ok [descr_json sample_vision; JObj [("slug", JStr "openai/gpt-4o-mini")]]).
Proof.
  apply (find_model_slug_match_keeps ascii_str_lower "GPT" (fun _ => Resp200 sample_unnamed_catalog_body)
           sample_catalog_request sample_unnamed_catalog_body).
  - reflexivity.
  - reflexivity.
  - intros m Hm. apply list_elem_of_In in Hm.
    destruct Hm as [<-|[<-|[]]]; eexists; split; reflexivity.
Defined.

Lemma find_model_empty_term_witness :
  find_model ascii_str_lower "" (fun _ => Resp200 sample_catalog_body)
  = (sample_catalog_request, Ok (map descr_json [sample_vision; sample_text])).
Proof.
  apply (find_model_empty_term ascii_str_lower (fun _ => Resp200 sample_catalog_body)
           sample_catalog_request sample_catalog_body).
  - reflexivity.
  - reflexivity.
  - reflexivity.
  - intros m Hm. apply list_elem_of_In in Hm.
    destruct Hm as [<-|[<-|[]]]; eexists; reflexivity.
Defined.

(** A catalog whose second model has no slug. *)
Definition sample_unslugged_catalog_body : json :=
  JObj [("data", JList [descr_json sample_text; JObj [("name", JStr "Mystery")]])].

Lemma find_model_missing_slug_witness :
  find_model ascii_str_lower "llama" (fun _ => Resp200 sample_unslugged_catalog_body)
  = (sample_catalog_request, Raise KeyError).
Proof.
  apply (find_model_missing_slug ascii_str_lower "llama" (fun _ => Resp200 sample_unslugged_catalog_body)
           sample_catalog_request sample_unslugged_catalog_body
           [descr_json sample_text; JObj [("name", JStr "Mystery")]]).
  - reflexivity.
  - reflexivity.
  - intros m Hm. apply list_elem_of_In in Hm.
    destruct Hm as [<-|[<-|[]]]; eexists; (split; [reflexivity|]);
      split; intros v Hv; simpl in Hv; try discriminate;
      injection Hv as <-; eexists; reflexivity.
  - exists [("name", JStr "Mystery")]. split; [apply list_elem_of_In; simpl; auto|reflexivity].
Defined.

Lemma list_models_tool_entries_witness :
  list_models_tool sample_env None (fun _ => Resp200 sample_catalog_body)
  = (sample_catalog_request, SOk (map listed_entry [sample_vision; sample_text])).
Proof.
  apply list_models_tool_entries; reflexivity.
Defined.


Lemma image_target_numbered_name_witness :
  image_target (["/"; "work"] ++ ["cat" +:+ "." +:+ "png"]) 2 1
  = ["/"; "work"] ++ ["cat" +:+ "_" +:+ pretty 1%nat +:+ "." +:+ "png"].
Proof.
  apply (image_target_numbered_name ["/"; "work"] "cat" "png" 2 1).
  - discriminate.
  - apply (bool_decide_unpack _). vm_compute. reflexivity.
  - discriminate.
  - discriminate.
Defined.
